(** * Web page summarizer and brochure builder: a shallow embedding

    Two Python scripts are modelled:
    - [code/1_summarizer_local_model.py] (module [Summarizer]);
    - [code/3_brochure_builder_with_ui.py] (module [Brochure]).

    Both scripts are sequential glue around three outside services: an HTTP
    client, an HTML parser and a chat-completion endpoint.  The scripts are
    embedded as programs of a small free monad whose nodes are the calls to
    the outside world; the pure functions of the libraries ([raise_for_status],
    the HTML parser, [get_text], [str.strip], [json.loads], [repr]) are the
    fields of a [Library] interface.  Every theorem holds for every library
    and every behaviour of the outside world. *)

From Stdlib Require Import String Ascii List Bool Arith Lia ZArith.
From Stdlib Require Import Floats.SpecFloat.
Import ListNotations.
Local Open Scope list_scope.
Local Open Scope string_scope.

Set Implicit Arguments.
Set Warnings "-register-all".

(* ================================================================== *)
(** ** Python strings *)

(** A Python [str] is a sequence of characters; [ascii] stands for the
    character type. *)

Definition nl : string := String "010" EmptyString.
Definition dq : string := String "034" EmptyString.
Definition quoted (s : string) : string := dq ++ s ++ dq.

(** [sep.join(items)] *)
Definition join (sep : string) (items : list string) : string :=
  String.concat sep items.

(** [s[:n]] for a non-negative [n] *)
Definition slice_to (n : nat) (s : string) : string := substring 0 n s.

(* ================================================================== *)
(** ** Python values decoded from JSON *)

Inductive pyval : Type :=
| PNone
| PBool (b : bool)
| PInt (z : Z)
| PFloat (f : spec_float)
| PStr (s : string)
| PList (items : list pyval)
| PDict (entries : list (string * pyval)).

(** Exceptions: all the exceptions modelled derive from [Exception];
    [exn_str] is [str(e)]. *)
Record exn : Type := mkExn { exn_class : string; exn_str : string }.

Definition type_name (v : pyval) : string :=
  match v with
  | PNone => "NoneType"
  | PBool _ => "bool"
  | PInt _ => "int"
  | PFloat _ => "float"
  | PStr _ => "str"
  | PList _ => "list"
  | PDict _ => "dict"
  end.

Definition AttributeError (v : pyval) (attr : string) : exn :=
  mkExn "AttributeError"
        ("'" ++ type_name v ++ "' object has no attribute '" ++ attr ++ "'").
Definition NotIterable (v : pyval) : exn :=
  mkExn "TypeError" ("'" ++ type_name v ++ "' object is not iterable").
Definition NotSubscriptable (v : pyval) : exn :=
  mkExn "TypeError"
        (match v with
         | PStr _ => "string indices must be integers, not 'str'"
         | PList _ => "list indices must be integers or slices, not str"
         | _ => "'" ++ type_name v ++ "' object is not subscriptable"
         end).
Definition NoLen (v : pyval) : exn :=
  mkExn "TypeError" ("object of type '" ++ type_name v ++ "' has no len()").
Definition KeyError (key : string) : exn :=
  mkExn "KeyError" ("'" ++ key ++ "'").
Definition IndexError : exn :=
  mkExn "IndexError" "list index out of range".
Definition JSONTypeError : exn :=
  mkExn "TypeError"
        "the JSON object must be str, bytes or bytearray, not NoneType".

(** Dictionary lookup by a string key. *)
Fixpoint lookup (key : string) (entries : list (string * pyval))
  : option pyval :=
  match entries with
  | [] => None
  | (k, v) :: rest => if String.eqb k key then Some v else lookup key rest
  end.

(** Truth value of a Python object. *)
Definition truthy (v : pyval) : bool :=
  match v with
  | PNone => false
  | PBool b => b
  | PInt z => negb (Z.eqb z 0)
  | PFloat f => match f with S754_zero _ => false | _ => true end
  | PStr s => negb (String.eqb s EmptyString)
  | PList items => match items with [] => false | _ => true end
  | PDict entries => match entries with [] => false | _ => true end
  end.

(** [v != s] for a string literal [s]: only a [str] can be equal to it. *)
Definition ne_str (v : pyval) (s : string) : bool :=
  match v with
  | PStr t => negb (String.eqb t s)
  | _ => true
  end.

(* ================================================================== *)
(** ** The outside world *)

(** [requests.Response], as far as the scripts read it. *)
Record Response : Type := mkResponse { status_code : Z; content : string }.

(** A chat message [{"role": ..., "content": ...}]. *)
Inductive role : Type := system | user.
Record ChatMessage : Type := mkMessage { msg_role : role; msg_content : string }.

(** [response.choices[i].message.content], which may be [None]. *)
Record Choice : Type := mkChoice { message_content : option string }.
Record ChatCompletion : Type := mkCompletion { choices : list Choice }.

(** [OpenAI(base_url=..., api_key=...)] *)
Record OpenAI : Type := mkOpenAI { base_url : string; api_key : string }.

(** [response_format={"type": ...}] *)
Record response_format : Type := mkFormat { format_type : string }.

(** The calls the scripts make to the outside world, indexed by the type of
    their answer. *)
Inductive event : Type -> Type :=
| RandomChoice (n : nat) : event nat
    (* random.choice over a pool of n items: the index drawn *)
| RequestsGet (url : pyval) (headers : list (string * string)) (timeout : nat)
    : event (exn + Response)
| Print (line : string) : event unit
| SleepUniform (lo hi : nat) : event unit
    (* time.sleep(random.uniform(lo, hi)) *)
| ChatCompletionsCreate (client : OpenAI) (model : string)
    (messages : list ChatMessage) (format : option response_format)
    : event (exn + ChatCompletion).

(** One call with its answer. *)
Inductive call : Type :=
| Call {X : Type} (ev : event X) (answer : X).

Definition trace : Type := list call.

(* ================================================================== *)
(** ** Programs *)

Inductive prog (A : Type) : Type :=
| Ret (a : A)
| Raise (e : exn)
| Vis {X : Type} (ev : event X) (k : X -> prog A).

Arguments Ret {A} a.
Arguments Raise {A} e.
Arguments Vis {A X} ev k.

Fixpoint bind {A B : Type} (p : prog A) (f : A -> prog B) : prog B :=
  match p with
  | Ret a => f a
  | Raise e => Raise e
  | Vis ev k => Vis ev (fun x => bind (k x) f)
  end.

(** [try: p except Exception as e: handler e] *)
Fixpoint try_except {A : Type} (p : prog A) (handler : exn -> prog A)
  : prog A :=
  match p with
  | Ret a => Ret a
  | Raise e => handler e
  | Vis ev k => Vis ev (fun x => try_except (k x) handler)
  end.

Definition trigger {X : Type} (ev : event X) : prog X := Vis ev Ret.

(** A call that answers with an exception or a value. *)
Definition trigger_raising {X : Type} (ev : event (exn + X)) : prog X :=
  Vis ev (fun r => match r with inl e => Raise e | inr x => Ret x end).

Declare Scope prog_scope.
Delimit Scope prog_scope with prog.
Notation "x <- p ;; q" := (bind p (fun x => q))
  (at level 61, p at next level, right associativity) : prog_scope.
Notation "p ;; q" := (bind p (fun _ => q))
  (at level 61, right associativity) : prog_scope.
Local Open Scope prog_scope.

(** *** Running a program in a world *)

Section Run.
Variable W : Type.
Variable answer : forall X : Type, event X -> W -> X * W.

Fixpoint run {A : Type} (p : prog A) (w : W) : (exn + A) * trace * W :=
  match p with
  | Ret a => (inr a, [], w)
  | Raise e => (inl e, [], w)
  | Vis ev k =>
      let '(x, w1) := answer ev w in
      let '(r, tr, w2) := run (k x) w1 in
      (r, Call ev x :: tr, w2)
  end.

Definition outcome {A : Type} (p : prog A) (w : W) : exn + A :=
  fst (fst (run p w)).
Definition trace_of {A : Type} (p : prog A) (w : W) : trace :=
  snd (fst (run p w)).
Definition world_after {A : Type} (p : prog A) (w : W) : W :=
  snd (run p w).
End Run.

(** What a trace shows: the URLs fetched and the chat requests sent, in
    order. *)
Fixpoint fetched_urls (tr : trace) : list pyval :=
  match tr with
  | [] => []
  | Call (RequestsGet url _ _) _ :: rest => url :: fetched_urls rest
  | Call _ _ :: rest => fetched_urls rest
  end.

Fixpoint chat_requests (tr : trace)
  : list (list ChatMessage * option response_format) :=
  match tr with
  | [] => []
  | Call (ChatCompletionsCreate _ _ messages format) _ :: rest =>
      (messages, format) :: chat_requests rest
  | Call _ _ :: rest => chat_requests rest
  end.

Fixpoint printed_lines (tr : trace) : list string :=
  match tr with
  | [] => []
  | Call (Print line) _ :: rest => line :: printed_lines rest
  | Call _ _ :: rest => printed_lines rest
  end.

(* ================================================================== *)
(** ** Parsed HTML (BeautifulSoup) *)

(** A parsed document is a forest of nodes: text, or an element with its
    attributes and contents.  [html.parser] gives every attribute a string
    value (an attribute without a value reads as the empty string). *)
Inductive node : Type :=
| NavigableString (s : string)
| Tag (name : string) (attrs : list (string * string)) (contents : list node).

Definition soup : Type := list node.

Section node_induction.
Variable P : node -> Prop.
Hypothesis P_string : forall s, P (NavigableString s).
Hypothesis P_tag :
  forall name attrs contents, Forall P contents -> P (Tag name attrs contents).

Fixpoint node_nested_ind (n : node) : P n :=
  match n with
  | NavigableString s => P_string s
  | Tag name attrs contents =>
      P_tag name attrs
        ((fix all (l : list node) : Forall P l :=
            match l with
            | [] => Forall_nil P
            | c :: rest => Forall_cons c (node_nested_ind c) (all rest)
            end) contents)
  end.
End node_induction.

(** The elements of a subtree, the root first, in document order. *)
Fixpoint tags_of (n : node) : list node :=
  match n with
  | NavigableString _ => []
  | Tag _ _ contents => n :: flat_map tags_of contents
  end.

Definition is_named (names : list string) (n : node) : bool :=
  match n with
  | NavigableString _ => false
  | Tag name _ _ => existsb (String.eqb name) names
  end.

(** [tag.find_all(names)] over the descendants whose forest is [under];
    [soup.find_all] takes the whole document. *)
Definition find_all (names : list string) (under : list node) : list node :=
  filter (is_named names) (flat_map tags_of under).

(** [soup.title], [soup.body]: the first element of that name, if any. *)
Definition find (name : string) (doc : soup) : option node :=
  hd_error (find_all [name] doc).

Definition contents_of (n : node) : list node :=
  match n with
  | NavigableString _ => []
  | Tag _ _ contents => contents
  end.

(** [tag.string]: the only child when it is a string, the [.string] of the
    only child when it is an element, [None] otherwise. *)
Fixpoint tag_string (n : node) : option string :=
  match n with
  | NavigableString s => Some s
  | Tag _ _ [c] => tag_string c
  | Tag _ _ _ => None
  end.

(** [tag.get(key)] *)
Fixpoint attr_get (key : string) (attrs : list (string * string))
  : option string :=
  match attrs with
  | [] => None
  | (k, v) :: rest => if String.eqb k key then Some v else attr_get key rest
  end.

(** The contents of an element once the children with one of the names
    are taken out and [rec] has gone through the others. *)
Section kept.
Variable rec : node -> node.
Variable names : list string.

Fixpoint kept (l : list node) : list node :=
  match l with
  | [] => []
  | c :: rest => if is_named names c then kept rest else rec c :: kept rest
  end.
End kept.

(** [for tag in t.find_all(names): tag.decompose()]: every descendant of
    [t] with one of the names is taken out of the tree. *)
Fixpoint decompose_all (names : list string) (n : node) : node :=
  match n with
  | NavigableString s => NavigableString s
  | Tag name attrs contents =>
      Tag name attrs (kept (decompose_all names) names contents)
  end.

(** A forest after the in-place edit [edit] of the first node, in document
    order, that [edit] applies to; [None] when there is no such node. *)
Section edit_among.
Variable edit : node -> option node.

Fixpoint edit_first_among (l : list node) : option (list node) :=
  match l with
  | [] => None
  | c :: rest =>
      match edit c with
      | Some c' => Some (c' :: rest)
      | None =>
          match edit_first_among rest with
          | Some rest' => Some (c :: rest')
          | None => None
          end
      end
  end.
End edit_among.

(** The subtree of [n] after an in-place edit [f] of its first element
    called [name]. *)
Fixpoint edit_first (name : string) (f : node -> node) (n : node)
  : option node :=
  match n with
  | NavigableString _ => None
  | Tag nm attrs contents =>
      if String.eqb nm name then Some (f n)
      else
        match edit_first_among (edit_first name f) contents with
        | Some contents' => Some (Tag nm attrs contents')
        | None => None
        end
  end.

Definition edit_first_in (name : string) (f : node -> node) (doc : soup)
  : option soup :=
  edit_first_among (edit_first name f) doc.

(* ================================================================== *)
(** ** The pure library functions the scripts call *)

Class Library : Type := {
  (** [response.raise_for_status()]: the [HTTPError] raised, if any *)
  raise_for_status : Response -> option exn;
  (** [BeautifulSoup(content, 'html.parser')] *)
  parse_html : string -> exn + soup;
  (** [tag.get_text(separator=newline, strip=True)] *)
  get_text : node -> string;
  (** [s.strip()] *)
  strip : string -> string;
  (** [json.loads(s)] *)
  json_loads : string -> exn + pyval;
  (** [repr(v)] *)
  repr : pyval -> string
}.

(** [str(v)], as an f-string and [print] format a value. *)
Definition str `{Library} (v : pyval) : string :=
  match v with
  | PStr s => s
  | _ => repr v
  end.

Definition lift_result {A : Type} (r : exn + A) : prog A :=
  match r with
  | inl e => Raise e
  | inr a => Ret a
  end.

(** [response.raise_for_status()] as a statement. *)
Definition check_status `{Library} (response : Response) : prog unit :=
  match raise_for_status response with
  | Some e => Raise e
  | None => Ret tt
  end.

(** [response.choices[0].message.content] *)
Definition first_content (response : ChatCompletion) : prog (option string) :=
  match choices response with
  | [] => Raise IndexError
  | choice :: _ => Ret (message_content choice)
  end.

(** [str(x)] for a value that is a string or [None]. *)
Definition str_or_None (x : option string) : string :=
  match x with
  | Some s => s
  | None => "None"
  end.

(* ================================================================== *)
(** ** code/1_summarizer_local_model.py *)

Module Summarizer.

Definition HEADERS : list (string * string) :=
  [("User-Agent",
    "Mozilla/5.0 (Windows NT 10.0; Win64; x64) AppleWebKit/537.36 (KHTML, like Gecko) Chrome/117.0.0.0 Safari/537.36")].

Definition MODEL : string := "llama3.2".
Definition OLLAMA_URL : string := "http://localhost:11434/v1".
Definition OLLAMA_KEY : string := "ollama".

Definition SYSTEM_PROMPT : string :=
  "You are an assistant that analyzes the contents of a website " ++ nl ++
  "and provides a short summary, ignoring text that might be navigation related. " ++ nl ++
  "Respond in markdown.".

(** [title] is [soup.title.string], which is [None] for a title element
    that does not hold exactly one string. *)
Record Website : Type := mkWebsite {
  url : string;
  title : option string;
  text : string
}.

Definition NOISE : list string :=
  ["script"; "style"; "img"; "input"; "nav"; "footer"].

Section with_library.
Context `{Library}.

(** [Website.__init__] *)
Definition Website__init__ (url : string) : prog Website :=
  try_except
    (response <- trigger_raising (RequestsGet (PStr url) HEADERS 10) ;;
     check_status response ;;
     soup <- lift_result (parse_html (content response)) ;;
     let title :=
       match find "title" soup with
       | Some t => tag_string t
       | None => Some "No title found"
       end in
     let text :=
       match find "body" soup with
       | Some body => get_text (decompose_all NOISE body)
       | None => "No body content found"
       end in
     Ret (mkWebsite url title text))
    (fun e =>
       Ret (mkWebsite url
              (Some ("Error: " ++ exn_str e))
              ("Failed to fetch website content: " ++ exn_str e))).

Record WebsiteSummarizer : Type := mkSummarizer { client : OpenAI }.

(** [WebsiteSummarizer.__init__] *)
Definition WebsiteSummarizer__init__ : WebsiteSummarizer :=
  mkSummarizer (mkOpenAI OLLAMA_URL OLLAMA_KEY).

Definition _create_user_prompt (website : Website) : string :=
  "You are looking at a website titled " ++ str_or_None (title website) ++ nl ++
  "The contents of this website is as follows; please provide a short summary " ++ nl ++
  "of this website in markdown. If it includes news or announcements, " ++ nl ++
  "then summarize these too." ++ nl ++
  nl ++
  text website.

Definition _create_messages (website : Website) : list ChatMessage :=
  [ mkMessage system SYSTEM_PROMPT;
    mkMessage user (_create_user_prompt website) ].

Definition summarize (self : WebsiteSummarizer) (url : string)
  : prog (option string) :=
  website <- Website__init__ url ;;
  try_except
    (response <- trigger_raising
                   (ChatCompletionsCreate (client self) MODEL
                      (_create_messages website) None) ;;
     first_content response)
    (fun e =>
       Ret (Some ("## Error Generating Summary" ++ nl ++
                  "Failed to generate summary: " ++ exn_str e))).

Definition display_summary (self : WebsiteSummarizer) (url : string)
  : prog unit :=
  summary <- summarize self url ;;
  trigger (Print (str_or_None summary)).

End with_library.
End Summarizer.

(* ================================================================== *)
(** ** code/3_brochure_builder_with_ui.py *)

Module Brochure.

Definition MODEL : string := "llama3.2".
Definition OLLAMA_URL : string := "http://localhost:11434/v1".
Definition OLLAMA_KEY : string := "ollama".

Definition USER_AGENTS : list string :=
  [ "Mozilla/5.0 (Windows NT 10.0; Win64; x64) AppleWebKit/537.36 (KHTML, like Gecko) Chrome/117.0.0.0 Safari/537.36";
    "Mozilla/5.0 (Macintosh; Intel Mac OS X 10_15_7) AppleWebKit/605.1.15 (KHTML, like Gecko) Version/14.0.3 Safari/605.1.15";
    "Mozilla/5.0 (X11; Linux x86_64) AppleWebKit/537.36 (KHTML, like Gecko) Chrome/88.0.4324.96 Safari/537.36" ].

(** [random.choice] draws an index into the pool. *)
Definition get_headers : prog (list (string * string)) :=
  i <- trigger (RandomChoice (List.length USER_AGENTS)) ;;
  Ret [("User-Agent",
        nth (Nat.modulo i (List.length USER_AGENTS)) USER_AGENTS EmptyString)].

(** [url] is whatever the caller passes: the text of the form field, or the
    [url] entry of a decoded classifier reply. *)
Record Website : Type := mkWebsite {
  url : pyval;
  title : string;
  text : string;
  links : list string
}.

Definition set_title (self : Website) (t : string) : Website :=
  mkWebsite (url self) t (text self) (links self).
Definition set_text (self : Website) (t : string) : Website :=
  mkWebsite (url self) (title self) t (links self).
Definition set_links (self : Website) (l : list string) : Website :=
  mkWebsite (url self) (title self) (text self) l.

Definition NOISE : list string := ["script"; "style"; "img"; "input"].

(** [[a.get('href') for a in soup.find_all('a', href=True) if a.get('href')]] *)
Definition hrefs (doc : soup) : list string :=
  flat_map
    (fun a =>
       match attr_get "href" (match a with Tag _ attrs _ => attrs | _ => [] end) with
       | Some h => if String.eqb h EmptyString then [] else [h]
       | None => []
       end)
    (find_all ["a"] doc).

Section with_library.
Context `{Library}.

(** [Website._fetch_and_parse].  The calls that can raise come before the
    first assignment to a field, so the handler sees the fields as
    [__init__] set them. *)
Definition _fetch_and_parse (self : Website) : prog Website :=
  try_except
    (headers <- get_headers ;;
     response <- trigger_raising (RequestsGet (url self) headers 10) ;;
     check_status response ;;
     soup <- lift_result (parse_html (content response)) ;;
     let self :=
       set_title self
         match find "title" soup with
         | Some t =>
             match tag_string t with
             | Some s =>
                 if String.eqb s EmptyString then "No title found" else strip s
             | None => "No title found"
             end
         | None => "No title found"
         end in
     let '(soup, self) :=
       match find "body" soup with
       | Some body =>
           (match edit_first_in "body" (decompose_all NOISE) soup with
            | Some edited => edited
            | None => soup
            end,
            set_text self (get_text (decompose_all NOISE body)))
       | None => (soup, self)
       end in
     let self := set_links self (hrefs soup) in
     Ret self)
    (fun e =>
       trigger (Print ("Error fetching " ++ str (url self) ++ ": " ++ exn_str e)) ;;
       Ret self).

(** [Website.__init__] *)
Definition Website__init__ (url : pyval) : prog Website :=
  _fetch_and_parse (mkWebsite url "No title found" EmptyString []).

Definition get_contents (self : Website) : string :=
  "Webpage Title:" ++ nl ++ title self ++ nl ++
  "Webpage Contents:" ++ nl ++ text self ++ nl ++ nl.

Definition get_website_links (self : Website) : list string := links self.

Definition link_system_prompt : string :=
  "You are provided with a list of links found on a webpage. " ++
  "You are able to decide which of the links would be most relevant to include in a brochure about the company, " ++
  "such as links to an About page, or a Company page, or Careers/Jobs pages." ++ nl ++
  "You should respond in JSON as in this example:" ++ nl ++
  "{ " ++ quoted "links" ++ ": [ {" ++ quoted "type" ++ ": " ++ quoted "about page" ++
  ", " ++ quoted "url" ++ ": " ++ quoted "https://full.url/goes/here/about" ++
  "}, {" ++ quoted "type" ++ ": " ++ quoted "careers page" ++
  ", " ++ quoted "url" ++ ": " ++ quoted "https://another.full.url/careers" ++ "} ] }".

Definition get_links_user_prompt (website : Website) : string :=
  "Here is the list of links on the website of " ++ str (url website) ++ " - " ++
  "please decide which of these are relevant web links for a brochure about the company, respond with the full https URL in JSON format. " ++
  "Do not include Terms of Service, Privacy, email links." ++ nl ++
  "Links (some might be relative links):" ++ nl ++
  join nl (links website).

Definition get_links (url : string) : prog pyval :=
  website <- Website__init__ (PStr url) ;;
  let openai := mkOpenAI OLLAMA_URL OLLAMA_KEY in
  response <- trigger_raising
                (ChatCompletionsCreate openai MODEL
                   [ mkMessage system link_system_prompt;
                     mkMessage user (get_links_user_prompt website) ]
                   (Some (mkFormat "json_object"))) ;;
  result <- first_content response ;;
  match result with
  | Some s => lift_result (json_loads s)
  | None => Raise JSONTypeError
  end.

(** *** Operations on the decoded reply *)

(** [v.get(key, default)] *)
Definition dict_get (v : pyval) (key : string) (default : pyval) : prog pyval :=
  match v with
  | PDict entries =>
      Ret (match lookup key entries with Some x => x | None => default end)
  | _ => Raise (AttributeError v "get")
  end.

(** The items a [for] loop over [v] visits. *)
Definition iterate (v : pyval) : prog (list pyval) :=
  match v with
  | PList items => Ret items
  | PDict entries => Ret (map (fun kv => PStr (fst kv)) entries)
  | PStr s =>
      Ret (map (fun c => PStr (String c EmptyString)) (list_ascii_of_string s))
  | _ => Raise (NotIterable v)
  end.

(** [v[key]] for a string key *)
Definition getitem (v : pyval) (key : string) : prog pyval :=
  match v with
  | PDict entries =>
      match lookup key entries with
      | Some x => Ret x
      | None => Raise (KeyError key)
      end
  | _ => Raise (NotSubscriptable v)
  end.

(** [len(v)] *)
Definition len (v : pyval) : prog nat :=
  match v with
  | PStr s => Ret (String.length s)
  | PList items => Ret (List.length items)
  | PDict entries => Ret (List.length entries)
  | _ => Raise (NoLen v)
  end.

(** [link["url"] and link["url"] != "/" and len(link["url"]) > 1] *)
Definition followed (link : pyval) : prog bool :=
  u <- getitem link "url" ;;
  if truthy u then
    u <- getitem link "url" ;;
    if ne_str u "/" then
      u <- getitem link "url" ;;
      n <- len u ;;
      Ret (Nat.ltb 1 n)
    else Ret false
  else Ret false.

(** The body of [get_all_details]'s loop, over the items still to visit. *)
Fixpoint for_links (items : list pyval) (result : string) : prog string :=
  match items with
  | [] => Ret result
  | link :: rest =>
      follow <- followed link ;;
      if (follow : bool) then
        trigger (SleepUniform 1 2) ;;
        type <- getitem link "type" ;;
        let result := result ++ (nl ++ nl ++ str type ++ nl) in
        u <- getitem link "url" ;;
        website <- Website__init__ u ;;
        let result := result ++ get_contents website in
        for_links rest result
      else for_links rest result
  end.

Definition get_all_details (url : string) : prog string :=
  let result := "Landing page:" ++ nl in
  website <- Website__init__ (PStr url) ;;
  let result := result ++ get_contents website in
  links <- get_links url ;;
  trigger (Print ("Found links: " ++ str links)) ;;
  found <- dict_get links "links" (PList []) ;;
  items <- iterate found ;;
  for_links items result.

Definition system_prompt : string :=
  "You are an assistant that analyzes the contents of several relevant pages from a company website " ++
  "and creates a short brochure about the company for prospective customers, investors and recruits. Respond in markdown. " ++
  "Include details of company culture, customers and careers/jobs if you have the information.".

Definition get_brochure_user_prompt (company_name url : string) : prog string :=
  details <- get_all_details url ;;
  let user_prompt :=
    "You are looking at a company called: " ++ company_name ++ nl ++
    "Here are the contents of its landing page and other relevant pages; use this information to build a short brochure of the company in markdown." ++ nl ++
    details in
  Ret (slice_to 5000 user_prompt).

Definition create_brochure (company_name url : string)
  : prog (option string) :=
  let openai := mkOpenAI OLLAMA_URL OLLAMA_KEY in
  prompt <- get_brochure_user_prompt company_name url ;;
  response <- trigger_raising
                (ChatCompletionsCreate openai MODEL
                   [ mkMessage system system_prompt;
                     mkMessage user prompt ]
                   None) ;;
  first_content response.

End with_library.
End Brochure.


(* ================================================================== *)
(** ** The reply of the link classifier, as the specification sees it *)

(** A [LinkClassification] of the specification's data model. *)
Record LinkClassification : Type := mkLink {
  link_type : string;
  link_url : string
}.

(** A decoded item is a classification: a dict whose [type] and [url]
    entries are those strings. *)
Definition classifies (v : pyval) (c : LinkClassification) : Prop :=
  exists entries,
    v = PDict entries
    /\ lookup "type" entries = Some (PStr (link_type c))
    /\ lookup "url" entries = Some (PStr (link_url c)).

(** A decoded reply holds these classifications under [links] (none when
    the reply has no such entry). *)
Definition decodes (reply : pyval) (cls : list LinkClassification) : Prop :=
  exists entries items,
    reply = PDict entries
    /\ match lookup "links" entries with
       | Some found => found
       | None => PList []
       end = PList items
    /\ Forall2 classifies items cls.

(** The links the specification says are followed: the url is not empty,
    is not the single character [/], and is longer than one character. *)
Definition wanted (c : LinkClassification) : bool :=
  negb (String.eqb (link_url c) EmptyString)
  && negb (String.eqb (link_url c) "/")
  && Nat.ltb 1 (String.length (link_url c)).

(** The aggregation loop as the specification words it: for each followed
    classification, in order, wait, fetch the page and append its content
    under the classification's type. *)
Fixpoint append_pages `{Library} (cls : list LinkClassification)
  (result : string) : prog string :=
  match cls with
  | [] => Ret result
  | c :: rest =>
      trigger (SleepUniform 1 2) ;;
      website <- Brochure.Website__init__ (PStr (link_url c)) ;;
      append_pages rest
        ((result ++ (nl ++ nl ++ link_type c ++ nl))
           ++ Brochure.get_contents website)
  end.

(* ================================================================== *)
(** ** The links of a page, as the specification sees them *)

(** The target of an anchor element with a non-empty [href]. *)
Definition href_target (n : node) : list string :=
  match n with
  | Tag name attrs _ =>
      if String.eqb name "a" then
        match attr_get "href" attrs with
        | Some h => if String.eqb h EmptyString then [] else [h]
        | None => []
        end
      else []
  | NavigableString _ => []
  end.

(** The targets of all the anchors of a document, in document order. *)
Definition anchor_targets (doc : soup) : list string :=
  flat_map href_target (flat_map tags_of doc).

(** The trees [html.parser] builds: it reads the content of [script] and
    [style] as text and closes [img] and [input] as it opens them, so none
    of these elements holds an element. *)
Definition holds_no_element (n : node) : bool :=
  match flat_map tags_of (contents_of n) with
  | [] => true
  | _ :: _ => false
  end.

Definition well_parsed (n : node) : bool :=
  if is_named Brochure.NOISE n then holds_no_element n else true.

Definition html_parser_shape (doc : soup) : bool :=
  forallb well_parsed (flat_map tags_of doc).

(* ================================================================== *)
(** ** A small world to run the scripts in *)

Module Example.

(** The world answers every call from a fixed script. *)
Record script : Type := mkScript {
  on_get : pyval -> exn + Response;
  on_chat : list ChatMessage -> option response_format -> exn + ChatCompletion
}.

Definition scripted (X : Type) (ev : event X) (w : script) : X * script :=
  match ev in event X return X * script with
  | RandomChoice _ => (0, w)
  | RequestsGet url _ _ => (on_get w url, w)
  | Print _ => (tt, w)
  | SleepUniform _ _ => (tt, w)
  | ChatCompletionsCreate _ _ messages format => (on_chat w messages format, w)
  end.

(** *** A library *)

Definition HTTPError : exn := mkExn "HTTPError" "404 Client Error: Not Found".
Definition ConnectionError : exn :=
  mkExn "ConnectionError" "Max retries exceeded".
Definition MissingSchema : exn :=
  mkExn "MissingSchema" "Invalid URL: No scheme supplied".
Definition JSONDecodeError : exn :=
  mkExn "JSONDecodeError" "Expecting value: line 1 column 1 (char 0)".
Definition APIConnectionError : exn :=
  mkExn "APIConnectionError" "Connection error.".

(** [requests] raises for the statuses 400 to 599. *)
Definition example_raise_for_status (response : Response) : option exn :=
  if ((400 <=? status_code response)%Z && (status_code response <? 600)%Z)%bool
  then Some HTTPError
  else None.

Definition home_html : string := "<html>Acme home</html>".

Definition home_doc : soup :=
  [ Tag "html" []
      [ Tag "head" [] [ Tag "title" [] [ NavigableString "Acme" ] ];
        Tag "body" []
          [ Tag "a" [("href", "/about")] [ NavigableString "About" ];
            Tag "script" [] [ NavigableString "track()" ];
            Tag "a" [("href", EmptyString)] [ NavigableString "nowhere" ];
            Tag "p" [] [ Tag "a" [("href", "jobs.html")] [ NavigableString "Jobs" ] ];
            Tag "a" [("name", "top")] [ NavigableString "anchor" ];
            Tag "a" [("href", "/about")] [ NavigableString "About us" ] ] ] ].

(** A page is the home page, a document of plain text without title and
    body elements, or a body that holds the content as its text. *)
Definition example_parse_html (content : string) : exn + soup :=
  if String.eqb content home_html then inr home_doc
  else if String.eqb content "plain text" then inr [ NavigableString content ]
  else inr [ Tag "html" [] [ Tag "body" [] [ NavigableString content ] ] ].

Fixpoint strings_of (n : node) : list string :=
  match n with
  | NavigableString s => [s]
  | Tag _ _ contents => flat_map strings_of contents
  end.

Definition example_get_text (n : node) : string := join nl (strings_of n).

Definition reply_json : string :=
  "{" ++ quoted "links" ++ ": [...]}".

Definition link (type url : string) : pyval :=
  PDict [("type", PStr type); ("url", PStr url)].

Definition reply_links : list pyval :=
  [ link "about page" "https://acme.test/about";
    link "home page" "/";
    link "careers page" "https://acme.test/careers";
    link "short" "x";
    link "about page" "https://acme.test/about" ].

Definition reply_value : pyval := PDict [("links", PList reply_links)].

Definition example_json_loads (s : string) : exn + pyval :=
  if String.eqb s reply_json then inr reply_value else inl JSONDecodeError.

#[export] Instance example_library : Library := {
  raise_for_status := example_raise_for_status;
  parse_html := example_parse_html;
  get_text := example_get_text;
  strip := fun s => s;
  json_loads := example_json_loads;
  repr := fun v => "<" ++ type_name v ++ ">"
}.

(** *** Worlds *)

Definition web (url : pyval) : exn + Response :=
  match url with
  | PStr s =>
      if String.eqb s "https://acme.test/missing" then inr (mkResponse 404 "Not Found")
      else if String.eqb s "https://acme.test/plain" then inr (mkResponse 200 "plain text")
      else if String.eqb s "https://acme.test/careers" then inl ConnectionError
      else inr (mkResponse 200 home_html)
  | _ => inl MissingSchema
  end.

Definition completion (text : string) : ChatCompletion :=
  mkCompletion [ mkChoice (Some text) ].

(** The endpoint answers the classifier with [reply_json] and every other
    request with a brochure. *)
Definition online : script :=
  mkScript web
    (fun _ format =>
       match format with
       | Some _ => inr (completion reply_json)
       | None => inr (completion "# Acme")
       end).

(** The endpoint is down. *)
Definition endpoint_down : script :=
  mkScript web (fun _ _ => inl APIConnectionError).

(** The endpoint answers the classifier and then goes down. *)
Definition endpoint_fails_late : script :=
  mkScript web
    (fun _ format =>
       match format with
       | Some _ => inr (completion reply_json)
       | None => inl APIConnectionError
       end).

(** The endpoint answers without any choice. *)
Definition endpoint_empty : script :=
  mkScript web (fun _ _ => inr (mkCompletion [])).

(** The classifier answers with prose. *)
Definition classifier_chatty : script :=
  mkScript web (fun _ _ => inr (completion "Sure! Here are the links")).

(** The site is long: every page is three thousand characters of text. *)
Fixpoint repeat_string (n : nat) (s : string) : string :=
  match n with
  | O => EmptyString
  | S m => s ++ repeat_string m s
  end.

Definition long_site : script :=
  mkScript (fun _ => inr (mkResponse 200 (repeat_string 300 "0123456789")))
    (on_chat online).

End Example.

(* ================================================================== *)
(** ** Words for the statements *)

(** *** Parsed documents *)

Section labels.
Variable names : list string.

(** What [find_all] reads of an element: its name and attributes. *)
Definition label (n : node) : string * list (string * string) :=
  match n with
  | NavigableString _ => (EmptyString, [])
  | Tag name attrs _ => (name, attrs)
  end.

Definition named (l : string * list (string * string)) : bool :=
  existsb (String.eqb (fst l)) names.

(** The labels of the elements that do not have one of the names. *)
Definition others (tags : list node) : list (string * list (string * string)) :=
  filter (fun l => negb (named l)) (map label tags).

Definition leaf_if_named (n : node) : bool :=
  if is_named names n then holds_no_element n else true.

Section first_of_name.
Variable name : string.

Definition first_named (tags : list node) : option node :=
  hd_error (filter (is_named [name]) tags).

Definition edited_first (n : node) : Prop :=
  (forall t, first_named (tags_of n) = Some t ->
     exists n',
       edit_first name (decompose_all names) n = Some n'
       /\ first_named (tags_of n') = Some (decompose_all names t))
  /\ (first_named (tags_of n) = None ->
      edit_first name (decompose_all names) n = None).

End first_of_name.
End labels.

(** *** Runs of the summarizer *)

Module SummarizerRuns.
Import Summarizer.

Section runs.
Context {L : Library} {W : Type}.
Variable answer : forall X : Type, event X -> W -> X * W.

(** The answer of the world to the page request of [Website(url)]. *)
Definition page_response (url : string) (w : W) : exn + Response :=
  fst (answer (RequestsGet (PStr url) HEADERS 10) w).

(** The fetch of [url] fails with [e]: the request raises [e], or it
    answers and [raise_for_status] raises [e]. *)
Definition fetch_fails (url : string) (w : W) (e : exn) : Prop :=
  match page_response url w with
  | inl e' => e' = e
  | inr response => raise_for_status response = Some e
  end.

(** The text [summarize] returns for the failure [e]. *)
Definition summary_error (e : exn) : string :=
  "## Error Generating Summary" ++ nl ++
  "Failed to generate summary: " ++ exn_str e.

End runs.
End SummarizerRuns.

(** *** Runs of the brochure builder *)

Module BrochureRuns.
Import Brochure.

Section runs.
Context {L : Library} {W : Type}.
Variable answer : forall X : Type, event X -> W -> X * W.

(** The page [Website(u)] builds in world [w], and the page of a failed
    fetch. *)
Definition blank (u : pyval) : Website :=
  mkWebsite u "No title found" EmptyString [].

Definition page_at (u : pyval) (w : W) : Website :=
  match outcome answer (Website__init__ u) w with
  | inr site => site
  | inl _ => blank u
  end.

(** The text the specification's loop appends, page after page. *)
Fixpoint sections (cls : list LinkClassification) (w : W) : string :=
  match cls with
  | [] => EmptyString
  | c :: rest =>
      let w1 := snd (answer (SleepUniform 1 2) w) in
      let u := PStr (link_url c) in
      (nl ++ nl ++ link_type c ++ nl)
        ++ get_contents (page_at u w1)
        ++ sections rest (world_after answer (Website__init__ u) w1)
  end.

(** *** The link classifier *)

Definition classifier_messages (url : string) (w : W) : list ChatMessage :=
  [ mkMessage system link_system_prompt;
    mkMessage user (get_links_user_prompt (page_at (PStr url) w)) ].

(** The answer of the endpoint to the request of [get_links(url)] started
    in world [w]. *)
Definition classifier_reply (url : string) (w : W) : exn + ChatCompletion :=
  fst (answer
         (ChatCompletionsCreate (mkOpenAI OLLAMA_URL OLLAMA_KEY) MODEL
            (classifier_messages url w) (Some (mkFormat "json_object")))
         (world_after answer (Website__init__ (PStr url)) w)).

(** The text [get_brochure_user_prompt] puts before the aggregated
    document. *)
Definition preamble (company_name : string) : string :=
  "You are looking at a company called: " ++ company_name ++ nl ++
  "Here are the contents of its landing page and other relevant pages; use this information to build a short brochure of the company in markdown." ++ nl.

Definition brochure_messages (prompt : string) : list ChatMessage :=
  [ mkMessage system system_prompt; mkMessage user prompt ].

(** The answer of the world to the page request of [Website(u)]. *)
Definition page_response (u : pyval) (w : W) : exn + Response :=
  let '(i, w0) := answer (RandomChoice (List.length USER_AGENTS)) w in
  fst (answer
         (RequestsGet u
            [("User-Agent",
              nth (Nat.modulo i (List.length USER_AGENTS)) USER_AGENTS
                EmptyString)]
            10)
         w0).

(** The fetch of [u] fails with [e]: the request raises [e], or it answers
    and [raise_for_status] raises [e]. *)
Definition fetch_fails (u : pyval) (w : W) (e : exn) : Prop :=
  match page_response u w with
  | inl e' => e' = e
  | inr response => raise_for_status response = Some e
  end.

(** The target an anchor's label gives. *)
Definition target (l : string * list (string * string)) : list string :=
  if String.eqb (fst l) "a" then
    match attr_get "href" (snd l) with
    | Some h => if String.eqb h EmptyString then [] else [h]
    | None => []
    end
  else [].

End runs.

(** The example site. *)
Definition acme : string := "https://acme.test/".

Definition acme_links : list LinkClassification :=
  [ mkLink "about page" "https://acme.test/about";
    mkLink "home page" "/";
    mkLink "careers page" "https://acme.test/careers";
    mkLink "short" "x";
    mkLink "about page" "https://acme.test/about" ].

End BrochureRuns.

(* ================================================================== *)
(** ** More words: pacing, and more worlds *)

(** What a trace shows of the pacing of the requests to the site: the
    delays and the fetches, in order. *)
Inductive step : Type :=
| Delay (lo hi : nat)
| Fetch (url : pyval).

Fixpoint pacing (tr : trace) : list step :=
  match tr with
  | [] => []
  | Call (SleepUniform lo hi) _ :: rest => Delay lo hi :: pacing rest
  | Call (RequestsGet url _ _) _ :: rest => Fetch url :: pacing rest
  | Call _ _ :: rest => pacing rest
  end.

(** The steps of following one classification. *)
Definition paced (c : LinkClassification) : list step :=
  [ Delay 1 2; Fetch (PStr (link_url c)) ].

(** The request [get_links(url)] sends when started in world [w]. *)
Module BrochureCalls.
Import Brochure BrochureRuns.

Section calls.
Context {L : Library} {W : Type}.
Variable answer : forall X : Type, event X -> W -> X * W.

Definition classifier_request (url : string) (w : W)
  : event (exn + ChatCompletion) :=
  ChatCompletionsCreate (mkOpenAI OLLAMA_URL OLLAMA_KEY) MODEL
    (classifier_messages answer url w) (Some (mkFormat "json_object")).

End calls.
End BrochureCalls.

(** *** HTTP statuses *)




Module MoreExamples.

Definition ParserRejectedMarkup : exn :=
  mkExn "ParserRejectedMarkup" "the document is empty".

(** The example library with a parser that rejects every document. *)
Definition rejecting_library : Library := {|
  raise_for_status := Example.example_raise_for_status;
  parse_html := fun _ => inl ParserRejectedMarkup;
  get_text := Example.example_get_text;
  strip := fun s => s;
  json_loads := Example.example_json_loads;
  repr := fun v => "<" ++ type_name v ++ ">"
|}.

(** The example library with a decoder that reads every reply as [v]. *)
Definition decoding_library (v : pyval) : Library := {|
  raise_for_status := Example.example_raise_for_status;
  parse_html := Example.example_parse_html;
  get_text := Example.example_get_text;
  strip := fun s => s;
  json_loads := fun _ => inr v;
  repr := fun v => "<" ++ type_name v ++ ">"
|}.

(** Replies of other shapes than the one the prompt asks for. *)
Definition bare_list : pyval := PList Example.reply_links.

Definition links_by_name : pyval :=
  PDict [("links", PDict [("about page", PStr "https://acme.test/about")])].

Definition missing_url : pyval :=
  PDict [("links",
          PList [ Example.link "about page" "https://acme.test/about";
                  PDict [("type", PStr "careers page")];
                  Example.link "team page" "https://acme.test/team" ])].

Definition untyped_link : pyval :=
  PDict [("url", PStr "https://acme.test/about")].

(** The body element of the example home page. *)
Definition home_body : node :=
  nth 1 (contents_of (hd (NavigableString EmptyString) Example.home_doc))
    (NavigableString EmptyString).

(** A company name of five thousand characters. *)
Definition long_name : string := Example.repeat_string 500 "0123456789".

(** The endpoint answers the classifier, and the brochure request with a
    reply that holds no choice. *)
Definition endpoint_empty_late : Example.script :=
  Example.mkScript Example.web
    (fun _ format =>
       match format with
       | Some _ => inr (Example.completion Example.reply_json)
       | None => inr (mkCompletion [])
       end).


(** The endpoint answers every request with a choice without content. *)
Definition endpoint_silent : Example.script :=
  Example.mkScript Example.web
    (fun _ _ => inr (mkCompletion [ mkChoice None ])).

End MoreExamples.
(* ================================================================== *)
(** ** How programs run *)

Lemma append_assoc (s1 s2 s3 : string) : (s1 ++ s2) ++ s3 = s1 ++ (s2 ++ s3).
Proof. induction s1 as [| c s1 IH]; simpl; [| rewrite IH]; reflexivity. Qed.

Lemma append_empty_r (s : string) : s ++ EmptyString = s.
Proof. induction s as [| c s IH]; simpl; [| rewrite IH]; reflexivity. Qed.

(** A slice [s[:n]] has [min n (len s)] characters and is the start of
    [s]. *)
Lemma length_slice_to (n : nat) (s : string) :
  String.length (slice_to n s) = Nat.min n (String.length s).
Proof.
  unfold slice_to; revert s; induction n as [| n IH]; intros [| c s]; simpl;
    try reflexivity.
  rewrite IH; reflexivity.
Qed.

Lemma slice_to_prefix (n : nat) (s : string) :
  exists rest, s = slice_to n s ++ rest.
Proof.
  unfold slice_to; revert s; induction n as [| n IH]; intros [| c s]; simpl.
  - exists EmptyString; reflexivity.
  - exists (String c s); reflexivity.
  - exists EmptyString; reflexivity.
  - destruct (IH s) as [rest Hrest]; exists rest; congruence.
Qed.

Section run_facts.
Context {W : Type} (answer : forall X : Type, event X -> W -> X * W).

Lemma run_bind {A B : Type} (p : prog A) (f : A -> prog B) (w : W) :
  run answer (bind p f) w =
  match run answer p w with
  | (inr a, tr, w1) =>
      let '(r, tr2, w2) := run answer (f a) w1 in (r, (tr ++ tr2)%list, w2)
  | (inl e, tr, w1) => (inl e, tr, w1)
  end.
Proof.
  revert w; induction p as [a | e | X ev k IH]; intro w; simpl.
  - destruct (run answer (f a) w) as [[r tr] w2]; reflexivity.
  - reflexivity.
  - destruct (answer ev w) as [x w1].
    rewrite IH.
    destruct (run answer (k x) w1) as [[[e | a] tr] w2]; [reflexivity |].
    destruct (run answer (f a) w2) as [[r tr2] w3]; reflexivity.
Qed.

Lemma run_try_except {A : Type} (p : prog A) (h : exn -> prog A) (w : W) :
  run answer (try_except p h) w =
  match run answer p w with
  | (inr a, tr, w1) => (inr a, tr, w1)
  | (inl e, tr, w1) =>
      let '(r, tr2, w2) := run answer (h e) w1 in (r, (tr ++ tr2)%list, w2)
  end.
Proof.
  revert w; induction p as [a | e | X ev k IH]; intro w; simpl.
  - reflexivity.
  - destruct (run answer (h e) w) as [[r tr] w2]; reflexivity.
  - destruct (answer ev w) as [x w1].
    rewrite IH.
    destruct (run answer (k x) w1) as [[[e | a] tr] w2]; [| reflexivity].
    destruct (run answer (h e) w2) as [[r tr2] w3]; reflexivity.
Qed.

Lemma fetched_urls_app (tr1 tr2 : trace) :
  fetched_urls (tr1 ++ tr2)%list = (fetched_urls tr1 ++ fetched_urls tr2)%list.
Proof.
  induction tr1 as [| [X ev x] tr1 IH]; simpl; [reflexivity |].
  destruct ev; simpl; rewrite IH; reflexivity.
Qed.

Lemma chat_requests_app (tr1 tr2 : trace) :
  chat_requests (tr1 ++ tr2)%list = (chat_requests tr1 ++ chat_requests tr2)%list.
Proof.
  induction tr1 as [| [X ev x] tr1 IH]; simpl; [reflexivity |].
  destruct ev; simpl; rewrite IH; reflexivity.
Qed.

End run_facts.


(* ================================================================== *)
(** ** Taking noise out of a parsed document *)

Section soup_facts.
Variable names : list string.

Local Abbreviation named := (named names).
Local Abbreviation others := (others names).
Local Abbreviation leaf_if_named := (leaf_if_named names).

Lemma others_app (l1 l2 : list node) :
  others (l1 ++ l2) = (others l1 ++ others l2)%list.
Proof. unfold others; rewrite map_app, filter_app; reflexivity. Qed.

(** Decomposing the named descendants of a well-parsed element removes
    their labels and no other. *)
Lemma decompose_all_others (n : node) :
  forallb leaf_if_named (tags_of n) = true ->
  map label (flat_map tags_of (contents_of (decompose_all names n)))
  = others (flat_map tags_of (contents_of n)).
Proof.
  induction n as [s | name attrs contents IH] using node_nested_ind;
    [reflexivity |].
  cbn [tags_of forallb decompose_all contents_of].
  intros Hshape; apply andb_prop in Hshape as [_ Hshape].
  induction IH as [| c rest Hc _ IHrest]; [reflexivity |].
  cbn [flat_map kept] in Hshape |- *.
  rewrite forallb_app in Hshape; apply andb_prop in Hshape as [Hhead Hrest].
  rewrite others_app, <- (IHrest Hrest).
  destruct c as [s | cname cattrs ccontents].
  - reflexivity.
  - cbn [is_named].
    cbn [tags_of forallb] in Hhead; apply andb_prop in Hhead as [Hleaf Hsub].
    destruct (existsb (String.eqb cname) names) eqn:Hnamed.
    + unfold leaf_if_named, holds_no_element in Hleaf.
      cbn [is_named contents_of] in Hleaf; rewrite Hnamed in Hleaf.
      cbn [tags_of].
      destruct (flat_map tags_of ccontents); [| discriminate].
      unfold others, named; cbn; rewrite Hnamed; reflexivity.
    + cbn [flat_map decompose_all tags_of map app].
      rewrite map_app.
      assert (Hsub' : forallb leaf_if_named (tags_of (Tag cname cattrs ccontents)) = true).
      { cbn [tags_of forallb]; rewrite Hleaf, Hsub; reflexivity. }
      specialize (Hc Hsub'); cbn [decompose_all contents_of] in Hc.
      rewrite Hc.
      unfold others; cbn [map filter label]; unfold named at 2; cbn [fst].
      rewrite Hnamed; reflexivity.
Qed.

Lemma others_idempotent (tags : list node) :
  filter (fun l => negb (named l)) (others tags) = others tags.
Proof.
  unfold others; induction (map label tags) as [| l ls IH]; [reflexivity |].
  cbn [filter]; destruct (negb (named l)) eqn:Hl; cbn [filter];
    rewrite ?Hl, IH; reflexivity.
Qed.

(** An edit that decomposes the named descendants of one element of a
    well-parsed forest keeps the labels of all the other elements. *)
Lemma edit_first_among_others (edit : node -> option node) (l : list node) :
  Forall (fun c => forall c',
            forallb leaf_if_named (tags_of c) = true ->
            edit c = Some c' -> others (tags_of c') = others (tags_of c)) l ->
  forall l',
    forallb leaf_if_named (flat_map tags_of l) = true ->
    edit_first_among edit l = Some l' ->
    others (flat_map tags_of l') = others (flat_map tags_of l).
Proof.
  induction 1 as [| c rest Hc _ IH]; intros l' Hshape Hedit; [discriminate |].
  cbn [flat_map edit_first_among] in *.
  rewrite forallb_app in Hshape; apply andb_prop in Hshape as [Hhead Hrest].
  destruct (edit c) as [c' |] eqn:Hedited.
  - injection Hedit as <-; cbn [flat_map].
    rewrite !others_app, (Hc c' Hhead eq_refl); reflexivity.
  - destruct (edit_first_among edit rest) as [rest' |]; [| discriminate].
    injection Hedit as <-; cbn [flat_map].
    rewrite !others_app, (IH rest' Hrest eq_refl); reflexivity.
Qed.

Lemma edit_first_others (name : string) (n : node) :
  forall n',
    forallb leaf_if_named (tags_of n) = true ->
    edit_first name (decompose_all names) n = Some n' ->
    others (tags_of n') = others (tags_of n).
Proof.
  induction n as [s | nm attrs contents IH] using node_nested_ind;
    intros n' Hshape Hedit; [discriminate |].
  cbn [edit_first] in Hedit.
  destruct (String.eqb nm name).
  - injection Hedit as <-.
    pose proof (decompose_all_others (Tag nm attrs contents) Hshape) as Hsub.
    cbn [decompose_all contents_of] in Hsub.
    cbn [decompose_all tags_of].
    change (others (?t :: ?l)) with (others ([t] ++ l)).
    rewrite !others_app; f_equal.
    unfold others at 1; rewrite Hsub; apply others_idempotent.
  - destruct (edit_first_among _ contents) as [contents' |] eqn:Hamong;
      [| discriminate].
    injection Hedit as <-.
    cbn [tags_of forallb] in Hshape; apply andb_prop in Hshape as [_ Hshape].
    cbn [tags_of].
    change (others (?t :: ?l)) with (others ([t] ++ l)).
    rewrite !others_app; f_equal.
    eapply edit_first_among_others; eauto.
Qed.

Lemma edit_first_in_others (name : string) (doc doc' : soup) :
  forallb leaf_if_named (flat_map tags_of doc) = true ->
  edit_first_in name (decompose_all names) doc = Some doc' ->
  others (flat_map tags_of doc') = others (flat_map tags_of doc).
Proof.
  apply edit_first_among_others.
  apply Forall_forall; intros c _ c'; apply edit_first_others.
Qed.

(** *** The edited element is still the first of its name *)

Lemma hd_error_filter_app {A : Type} (p : A -> bool) (l1 l2 : list A) :
  hd_error (filter p (l1 ++ l2))
  = match hd_error (filter p l1) with
    | Some x => Some x
    | None => hd_error (filter p l2)
    end.
Proof.
  induction l1 as [| x l1 IH]; [reflexivity |].
  cbn [app filter]; destruct (p x); [reflexivity | exact IH].
Qed.

Section first_of_name.
Variable name : string.

Local Abbreviation first_named := (first_named name).
Local Abbreviation edited_first := (edited_first names name).

Lemma edited_first_among (l : list node) :
  Forall edited_first l ->
  (forall t, first_named (flat_map tags_of l) = Some t ->
     exists l',
       edit_first_among (edit_first name (decompose_all names)) l = Some l'
       /\ first_named (flat_map tags_of l') = Some (decompose_all names t))
  /\ (first_named (flat_map tags_of l) = None ->
      edit_first_among (edit_first name (decompose_all names)) l = None).
Proof.
  unfold first_named.
  induction 1 as [| c rest [Hsome Hnone] _ [IHsome IHnone]];
    [split; [discriminate | reflexivity] |].
  unfold first_named in Hsome, Hnone.
  cbn [flat_map edit_first_among]; rewrite hd_error_filter_app.
  destruct (hd_error (filter (is_named [name]) (tags_of c))) as [t' |] eqn:Hc.
  - split; [| discriminate].
    intros t [= <-].
    destruct (Hsome t' eq_refl) as [c' [-> Hfirst]].
    exists (c' :: rest); split; [reflexivity |].
    cbn [flat_map]; rewrite hd_error_filter_app, Hfirst; reflexivity.
  - rewrite (Hnone eq_refl); split.
    + intros t Ht.
      destruct (IHsome t Ht) as [rest' [-> Hfirst]].
      exists (c :: rest'); split; [reflexivity |].
      cbn [flat_map]; rewrite hd_error_filter_app, Hc; exact Hfirst.
    + intros Hrest; rewrite (IHnone Hrest); reflexivity.
Qed.

Lemma edited_first_node (n : node) : edited_first n.
Proof.
  induction n as [s | nm attrs contents IH] using node_nested_ind.
  - split; [discriminate | reflexivity].
  - apply edited_first_among in IH as [IHsome IHnone].
    unfold edited_first, first_named in *.
    cbn [tags_of filter is_named existsb edit_first].
    rewrite orb_false_r.
    destruct (String.eqb nm name) eqn:Hname.
    + split; [| discriminate].
      intros t [= <-].
      eexists; split; [reflexivity |].
      cbn [decompose_all tags_of filter is_named existsb].
      rewrite orb_false_r, Hname; reflexivity.
    + split.
      * intros t Ht.
        destruct (IHsome t Ht) as [contents' [-> Hfirst]].
        eexists; split; [reflexivity |].
        cbn [tags_of filter is_named existsb].
        rewrite orb_false_r, Hname; exact Hfirst.
      * intros Hcontents; rewrite (IHnone Hcontents); reflexivity.
Qed.

(** After the loop that decomposes the named descendants of the first
    [name] element, that element, decomposed, is the first [name] element
    of the document. *)
Lemma find_after_edit (doc : soup) (t : node) :
  find name doc = Some t ->
  exists doc',
    edit_first_in name (decompose_all names) doc = Some doc'
    /\ find name doc' = Some (decompose_all names t).
Proof.
  apply (edited_first_among (l := doc)).
  apply Forall_forall; intros n _; apply edited_first_node.
Qed.

End first_of_name.

End soup_facts.
Module SummarizerFacts.
Import Summarizer SummarizerRuns.

Section facts.
Context {L : Library} {W : Type}.
Variable answer : forall X : Type, event X -> W -> X * W.

Local Abbreviation page_response := (page_response answer).
Local Abbreviation fetch_fails := (fetch_fails answer).

Lemma Website_total (url : string) (w : W) :
  exists site, outcome answer (Website__init__ url) w = inr site
               /\ chat_requests (trace_of answer (Website__init__ url) w) = [].
Proof.
  unfold outcome, trace_of, Website__init__, check_status; simpl.
  destruct (answer (RequestsGet (PStr url) HEADERS 10) w) as [[e | response] w1];
    simpl; [eauto |].
  destruct (raise_for_status response) as [e |]; simpl; [eauto |].
  destruct (parse_html (content response)) as [e | doc]; simpl; eauto.
Qed.


Lemma Website_returns (url : string) (w : W) :
  exists site tr w1,
    run answer (Website__init__ url) w = (inr site, tr, w1)
    /\ chat_requests tr = [].
Proof.
  destruct (Website_total url w) as [site [Hsite Htr]].
  unfold outcome, trace_of in *.
  destruct (run answer (Website__init__ url) w) as [[r tr] w1].
  simpl in *; subst r; eauto.
Qed.

(** [summarize] sends one request, built from the page it fetched, and
    returns whatever the endpoint does. *)
Lemma summarize_runs (self : WebsiteSummarizer) (url : string) (w : W)
  (site : Website) :
  outcome answer (Website__init__ url) w = inr site ->
  chat_requests (trace_of answer (summarize self url) w)
    = [(_create_messages site, None)]
  /\ exists summary, outcome answer (summarize self url) w = inr summary.
Proof.
  intros Hsite.
  destruct (Website_returns url w) as [site' [tr [w1 [Hrun Htr]]]].
  unfold outcome, trace_of in *; rewrite Hrun in Hsite; simpl in Hsite.
  injection Hsite as ->.
  unfold summarize; rewrite run_bind, Hrun; simpl.
  destruct (answer _ w1) as [[e | response] w2]; simpl.
  - rewrite chat_requests_app, Htr; simpl; eauto.
  - unfold first_content.
    destruct (choices response) as [| choice rest]; simpl;
      rewrite chat_requests_app, Htr; simpl; eauto.
Qed.



(** C10. Summarizer, Page Fetcher: when the fetch succeeds and the parsed
    document has no body element, Website(url) does not raise; its body text
    is the placeholder No body content found, its title is the string of the
    title element, or No title found when the document has no title element;
    the body text differs from that of every fetch failure. *)
Theorem page_without_body (url : string) (w : W) (response : Response)
  (doc : soup) :
  page_response url w = inr response ->
  raise_for_status response = None ->
  parse_html (content response) = inr doc ->
  find "body" doc = None ->
  outcome answer (Website__init__ url) w
    = inr (mkWebsite url
             match find "title" doc with
             | Some t => tag_string t
             | None => Some "No title found"
             end
             "No body content found")
  /\ forall e : exn,
       "No body content found"
         <> "Failed to fetch website content: " ++ exn_str e.
Proof.
  intros Hget Hstatus Hparse Hbody.
  split; [| intros e; discriminate].
  unfold page_response in Hget.
  unfold outcome, Website__init__, check_status; simpl.
  destruct (answer (RequestsGet (PStr url) HEADERS 10) w) as [r w1].
  simpl in Hget; subst r; simpl.
  rewrite Hstatus; simpl.
  rewrite Hparse; simpl.
  rewrite Hbody; reflexivity.
Qed.

End facts.
Section two_runs.
Context {L : Library} {W1 W2 : Type}.
Variable answer1 : forall X : Type, event X -> W1 -> X * W1.
Variable answer2 : forall X : Type, event X -> W2 -> X * W2.

(** C9. Summarizer, prompt building: two runs of summarize, in any two
    worlds, whose fetched pages have the same title and the same body text
    send the same messages to the completion endpoint: the fixed system
    prompt and the user prompt built from that title and text. *)
Theorem prompts_determined_by_page (self1 self2 : WebsiteSummarizer)
  (url1 url2 : string) (w1 : W1) (w2 : W2) (site1 site2 : Website) :
  outcome answer1 (Website__init__ url1) w1 = inr site1 ->
  outcome answer2 (Website__init__ url2) w2 = inr site2 ->
  title site1 = title site2 ->
  text site1 = text site2 ->
  chat_requests (trace_of answer1 (summarize self1 url1) w1)
    = chat_requests (trace_of answer2 (summarize self2 url2) w2)
  /\ chat_requests (trace_of answer1 (summarize self1 url1) w1)
       = [([ mkMessage system SYSTEM_PROMPT;
             mkMessage user (_create_user_prompt site1) ], None)].
Proof.
  intros H1 H2 Htitle Htext.
  destruct (summarize_runs answer1 self1 url1 w1 H1) as [R1 _].
  rewrite R1.
  split; [| reflexivity].
  unfold _create_messages, _create_user_prompt.
  rewrite Htitle, Htext.
  symmetry.
  destruct (summarize_runs answer2 self2 url2 w2 H2) as [R2 _].
  exact R2.
Qed.

End two_runs.

(** *** The theorems at work in the example world *)




Lemma page_without_body_witness :
  outcome Example.scripted
    (Website__init__ (H := Example.example_library) "https://acme.test/plain")
    Example.online
  = inr (mkWebsite "https://acme.test/plain" (Some "No title found")
           "No body content found").
Proof.
  refine (proj1 (@page_without_body Example.example_library _
                   Example.scripted "https://acme.test/plain" Example.online
                   (mkResponse 200 "plain text")
                   [ NavigableString "plain text" ] _ _ _ _));
    reflexivity.
Defined.

Lemma prompts_determined_by_page_witness :
  chat_requests
    (trace_of Example.scripted
       (summarize (H := Example.example_library) WebsiteSummarizer__init__
          "https://acme.test/") Example.online)
  = chat_requests
      (trace_of Example.scripted
         (summarize (H := Example.example_library) WebsiteSummarizer__init__
            "https://acme.test/") Example.endpoint_down).
Proof.
  refine (proj1 (@prompts_determined_by_page Example.example_library _ _
                   Example.scripted Example.scripted
                   WebsiteSummarizer__init__ WebsiteSummarizer__init__
                   "https://acme.test/" "https://acme.test/"
                   Example.online Example.endpoint_down _ _ _ _ _ _));
    reflexivity.
Defined.

(** The summarizer on the example site: the page, the prompt and the
    summary. *)
Example acme_summary :
  run Example.scripted
    (summarize (H := Example.example_library) WebsiteSummarizer__init__
       "https://acme.test/") Example.online
  = (inr (Some "# Acme"),
     [ Call (RequestsGet (PStr "https://acme.test/") HEADERS 10)
         (inr (mkResponse 200 Example.home_html));
       Call (ChatCompletionsCreate (mkOpenAI OLLAMA_URL OLLAMA_KEY) MODEL
               [ mkMessage system SYSTEM_PROMPT;
                 mkMessage user
                   ("You are looking at a website titled Acme" ++ nl ++
                    "The contents of this website is as follows; please provide a short summary " ++ nl ++
                    "of this website in markdown. If it includes news or announcements, " ++ nl ++
                    "then summarize these too." ++ nl ++ nl ++
                    "About" ++ nl ++ "nowhere" ++ nl ++ "Jobs" ++ nl ++
                    "anchor" ++ nl ++ "About us") ]
               None)
         (inr (Example.completion "# Acme")) ],
     Example.online).
Proof. reflexivity. Qed.

End SummarizerFacts.

Module BrochureFacts.
Import Brochure BrochureRuns.

Section facts.
Context {L : Library} {W : Type}.
Variable answer : forall X : Type, event X -> W -> X * W.

Local Abbreviation page_at := (page_at answer).
Local Abbreviation sections := (sections answer).
Local Abbreviation classifier_messages := (classifier_messages answer).
Local Abbreviation classifier_reply := (classifier_reply answer).
Local Abbreviation page_response := (page_response answer).
Local Abbreviation fetch_fails := (fetch_fails answer).

Lemma run_lift_result {A : Type} (r : exn + A) (w : W) :
  run answer (lift_result r) w = (r, [], w).
Proof. destruct r; reflexivity. Qed.

(** [Website(u)] never raises, fetches [u] once and sends no chat
    request. *)
Lemma Website_run (u : pyval) (w : W) :
  exists tr,
    run answer (Website__init__ u) w
      = (inr (page_at u w), tr, world_after answer (Website__init__ u) w)
    /\ fetched_urls tr = [u]
    /\ chat_requests tr = [].
Proof.
  unfold page_at, outcome, world_after.
  unfold Website__init__, _fetch_and_parse, get_headers, check_status; simpl.
  destruct (answer (RandomChoice 3) w) as [i w0]; simpl.
  destruct (answer (RequestsGet u _ 10) w0) as [[e | response] w1]; simpl.
  - destruct (answer (Print _) w1) as [[] w2]; simpl; eauto.
  - destruct (raise_for_status response) as [e |]; simpl.
    + destruct (answer (Print _) w1) as [[] w2]; simpl; eauto.
    + destruct (parse_html (content response)) as [e | doc]; simpl.
      * destruct (answer (Print _) w1) as [[] w2]; simpl; eauto.
      * destruct (find "body" doc); simpl; eauto.
Qed.


Lemma run_pure_bind {A B : Type} (r : exn + A) (f : A -> prog B) (w : W) :
  run answer (bind (lift_result r) f) w =
  match r with
  | inl e => (inl e, [], w)
  | inr a => run answer (f a) w
  end.
Proof. destruct r; reflexivity. Qed.

(** The operations on the decoded reply make no call. *)
Lemma getitem_pure (v : pyval) (key : string) :
  exists r, getitem v key = lift_result r.
Proof.
  destruct v; simpl; try (eexists (inl _); reflexivity).
  destruct (lookup key entries);
    [eexists (inr _) | eexists (inl _)]; reflexivity.
Qed.

Lemma len_pure (v : pyval) : exists r, len v = lift_result r.
Proof.
  destruct v; simpl;
    solve [eexists (inl _); reflexivity | eexists (inr _); reflexivity].
Qed.

Lemma followed_pure (link : pyval) :
  exists r, followed link = lift_result r.
Proof.
  unfold followed.
  destruct (getitem_pure link "url") as [[e | u] ->]; simpl.
  - exists (inl e); reflexivity.
  - destruct (truthy u); [| exists (inr false); reflexivity].
    destruct (ne_str u "/"); [| exists (inr false); reflexivity].
    destruct (len_pure u) as [[e | n] ->]; simpl.
    + exists (inl e); reflexivity.
    + exists (inr (Nat.ltb 1 n)); reflexivity.
Qed.

Lemma followed_classified (v : pyval) (c : LinkClassification) :
  classifies v c -> followed v = Ret (wanted c).
Proof.
  intros [entries [-> [_ Hurl]]].
  unfold followed, wanted; simpl; rewrite Hurl; simpl.
  destruct (String.eqb (link_url c) EmptyString); simpl; [reflexivity |].
  destruct (String.eqb (link_url c) "/"); reflexivity.
Qed.

(** The loop of [get_all_details] over a well-formed reply runs as the
    specification's loop over the wanted classifications. *)
Lemma for_links_refines (items : list pyval) (cls : list LinkClassification) :
  Forall2 classifies items cls ->
  forall (result : string) (w : W),
    run answer (for_links items result) w
    = run answer (append_pages (filter wanted cls) result) w.
Proof.
  induction 1 as [| v c items cls Hvc _ IH]; intros result w; [reflexivity |].
  cbn [for_links filter].
  rewrite (followed_classified Hvc); cbn [bind].
  destruct (wanted c); [| apply IH].
  destruct Hvc as [entries [-> [Htype Hurl]]].
  cbn [append_pages trigger bind getitem run].
  rewrite Htype, Hurl; cbn [bind str].
  destruct (answer (SleepUniform 1 2) w) as [[] w1].
  rewrite !run_bind.
  destruct (run answer (Website__init__ (PStr (link_url c))) w1)
    as [[[e | site] tr] w2]; [reflexivity |].
  rewrite IH; reflexivity.
Qed.

Lemma append_pages_run (cls : list LinkClassification) :
  forall (result : string) (w : W),
  exists tr w',
    run answer (append_pages cls result) w
      = (inr (result ++ sections cls w), tr, w')
    /\ fetched_urls tr = map (fun c => PStr (link_url c)) cls
    /\ chat_requests tr = [].
Proof.
  induction cls as [| c rest IH]; intros result w.
  - exists [], w; simpl; rewrite append_empty_r; auto.
  - cbn [append_pages trigger bind run sections].
    destruct (answer (SleepUniform 1 2) w) as [[] w1]; cbn [snd].
    destruct (Website_run (PStr (link_url c)) w1) as [tr1 [Hrun [Hget Hchat]]].
    rewrite run_bind, Hrun.
    destruct (IH ((result ++ (nl ++ nl ++ link_type c ++ nl))
                    ++ get_contents (page_at (PStr (link_url c)) w1))
                 (world_after answer (Website__init__ (PStr (link_url c))) w1))
      as [tr2 [w' [Hrest [Hget2 Hchat2]]]].
    rewrite Hrest.
    exists (Call (SleepUniform 1 2) tt :: tr1 ++ tr2)%list, w'.
    repeat split.
    + rewrite !append_assoc; reflexivity.
    + cbn [fetched_urls map]. rewrite fetched_urls_app, Hget, Hget2; reflexivity.
    + cbn [chat_requests]. rewrite chat_requests_app, Hchat, Hchat2; reflexivity.
Qed.


(** *** The link classifier *)

(** [get_links] fetches the page once and sends one request, whatever
    comes back. *)
Lemma get_links_trace (url : string) (w : W) :
  fetched_urls (trace_of answer (get_links url) w) = [PStr url]
  /\ chat_requests (trace_of answer (get_links url) w)
     = [(classifier_messages url w, Some (mkFormat "json_object"))].
Proof.
  unfold trace_of, get_links, classifier_messages.
  destruct (Website_run (PStr url) w) as [tr [Hrun [Hget Hchat]]].
  rewrite run_bind, Hrun; simpl.
  destruct (answer _ (world_after answer (Website__init__ (PStr url)) w))
    as [[e | completion] w2]; simpl.
  - rewrite fetched_urls_app, chat_requests_app, Hget, Hchat; auto.
  - unfold first_content.
    destruct (choices completion) as [| choice rest]; simpl.
    + rewrite fetched_urls_app, chat_requests_app, Hget, Hchat; auto.
    + destruct (message_content choice) as [s |]; simpl.
      * rewrite run_lift_result; simpl.
        rewrite fetched_urls_app, chat_requests_app, Hget, Hchat; auto.
      * rewrite fetched_urls_app, chat_requests_app, Hget, Hchat; auto.
Qed.

(** The loop sends no chat request, whatever the items are. *)
Lemma for_links_chat (items : list pyval) :
  forall (result : string) (w : W),
    chat_requests (trace_of answer (for_links items result) w) = [].
Proof.
  unfold trace_of.
  induction items as [| link rest IH]; intros result w; [reflexivity |].
  cbn [for_links].
  destruct (followed_pure link) as [[e | follow] ->]; rewrite run_pure_bind;
    [reflexivity |].
  destruct follow; [| apply IH].
  cbn [trigger bind run].
  destruct (answer (SleepUniform 1 2) w) as [[] w1].
  destruct (getitem_pure link "type") as [[e | type] ->];
    rewrite run_pure_bind; [reflexivity |].
  destruct (getitem_pure link "url") as [[e | u] ->];
    rewrite run_pure_bind; [reflexivity |].
  destruct (Website_run u w1) as [tr [Hrun [_ Hchat]]].
  rewrite run_bind, Hrun.
  specialize (IH ((result ++ (nl ++ nl ++ str type ++ nl))
                    ++ get_contents (page_at u w1))
                 (world_after answer (Website__init__ u) w1)).
  destruct (run answer (for_links rest _) _) as [[r tr2] w2].
  cbn in IH |- *.
  rewrite chat_requests_app, Hchat, IH; reflexivity.
Qed.


Lemma dict_get_pure (v : pyval) (key : string) (default : pyval) :
  exists r, dict_get v key default = lift_result r.
Proof.
  destruct v; simpl;
    solve [eexists (inl _); reflexivity | eexists (inr _); reflexivity].
Qed.

Lemma iterate_pure (v : pyval) : exists r, iterate v = lift_result r.
Proof.
  destruct v; simpl;
    solve [eexists (inl _); reflexivity | eexists (inr _); reflexivity].
Qed.

(** One turn of the loop on a wanted classification. *)
Lemma for_links_step (v : pyval) (c : LinkClassification)
  (items : list pyval) (result : string) (w : W) :
  classifies v c ->
  wanted c = true ->
  let w1 := snd (answer (SleepUniform 1 2) w) in
  let u := PStr (link_url c) in
  outcome answer (for_links (v :: items) result) w
  = outcome answer
      (for_links items
         ((result ++ (nl ++ nl ++ link_type c ++ nl))
            ++ get_contents (page_at u w1)))
      (world_after answer (Website__init__ u) w1).
Proof.
  intros Hvc Hwanted w1 u; subst w1 u.
  unfold outcome.
  cbn [for_links].
  rewrite (followed_classified Hvc), Hwanted; cbn [bind].
  destruct Hvc as [entries [-> [Htype Hurl]]].
  cbn [trigger bind getitem run].
  rewrite Htype, Hurl; cbn [bind str].
  destruct (answer (SleepUniform 1 2) w) as [[] w1]; cbn [snd].
  destruct (Website_run (PStr (link_url c)) w1) as [tr [Hrun _]].
  rewrite run_bind, Hrun.
  destruct (run answer (for_links items _) _) as [[r tr2] w2]; reflexivity.
Qed.

(** [get_all_details] sends the classifier's request and no other. *)
Lemma get_all_details_chat (url : string) (w : W) :
  chat_requests (trace_of answer (get_all_details url) w)
  = [(classifier_messages url
        (world_after answer (Website__init__ (PStr url)) w),
      Some (mkFormat "json_object"))].
Proof.
  unfold trace_of, get_all_details.
  destruct (Website_run (PStr url) w) as [tr [Hrun [_ Hchat]]].
  rewrite run_bind, Hrun.
  set (w1 := world_after answer (Website__init__ (PStr url)) w).
  destruct (get_links_trace url w1) as [_ Hchat2].
  unfold trace_of in Hchat2.
  rewrite run_bind.
  destruct (run answer (get_links url) w1) as [[[e | reply] tr2] w2];
    cbn [fst snd] in Hchat2 |- *.
  - rewrite chat_requests_app, Hchat, Hchat2; reflexivity.
  - cbn [trigger bind run].
    destruct (answer (Print _) w2) as [[] w3].
    destruct (dict_get_pure reply "links" (PList [])) as [[e | found] ->];
      rewrite run_pure_bind.
    + cbn. rewrite !chat_requests_app, Hchat, Hchat2; reflexivity.
    + destruct (iterate_pure found) as [[e | items] ->];
        rewrite run_pure_bind.
      * cbn. rewrite !chat_requests_app, Hchat, Hchat2; reflexivity.
      * generalize (for_links_chat items
                      (("Landing page:" ++ nl)
                         ++ get_contents (page_at (PStr url) w)) w3).
        unfold trace_of.
        destruct (run answer (for_links items _) w3) as [[r tr3] w4].
        cbn; intros Hchat3.
        rewrite !chat_requests_app, Hchat, Hchat2; cbn.
        rewrite Hchat3; reflexivity.
Qed.

(** [get_all_details] on a well-formed reply. *)
Lemma get_all_details_run (url : string) (w : W) (reply : pyval)
  (cls : list LinkClassification) :
  let w1 := world_after answer (Website__init__ (PStr url)) w in
  let w3 := snd (answer (Print ("Found links: " ++ str reply))
                   (world_after answer (get_links url) w1)) in
  outcome answer (get_links url) w1 = inr reply ->
  decodes reply cls ->
  outcome answer (get_all_details url) w
    = inr (("Landing page:" ++ nl)
             ++ get_contents (page_at (PStr url) w)
             ++ sections (filter wanted cls) w3)
  /\ fetched_urls (trace_of answer (get_all_details url) w)
     = PStr url :: PStr url
         :: map (fun c => PStr (link_url c)) (filter wanted cls).
Proof.
  intros w1 w3 Hreply [entries [items [-> [Hfound Hitems]]]].
  unfold outcome, trace_of, get_all_details.
  destruct (Website_run (PStr url) w) as [tr [Hrun [Hget _]]].
  rewrite run_bind, Hrun; fold w1.
  destruct (get_links_trace url w1) as [Hget2 _].
  unfold outcome, trace_of, world_after in Hreply, Hget2, w3.
  rewrite run_bind.
  destruct (run answer (get_links url) w1) as [[r tr2] w2].
  cbn [fst snd] in Hreply, Hget2, w3; subst r.
  cbn [trigger bind run dict_get].
  destruct (answer (Print _) w2) as [[] w3'] eqn:Hprint.
  cbn [snd] in w3; subst w3.
  rewrite Hfound; cbn [iterate bind].
  rewrite (for_links_refines Hitems).
  destruct (append_pages_run (filter wanted cls)
              (("Landing page:" ++ nl) ++ get_contents (page_at (PStr url) w))
              w3')
    as [tr3 [w4 [Hloop [Hget3 _]]]].
  rewrite Hloop; cbn [fst snd].
  split.
  - rewrite append_assoc; reflexivity.
  - rewrite fetched_urls_app, Hget; cbn.
    rewrite fetched_urls_app, Hget2; cbn.
    rewrite Hget3; reflexivity.
Qed.


(** *** The claims about the brochure builder *)

(** [create_brochure] sends its request after the classifier's, unless
    building the prompt raised. *)
Lemma create_brochure_run (company_name url : string) (w : W) :
  let classifier :=
    (classifier_messages url
       (world_after answer (Website__init__ (PStr url)) w),
     Some (mkFormat "json_object")) in
  match outcome answer (get_brochure_user_prompt company_name url) w with
  | inr prompt =>
      chat_requests (trace_of answer (create_brochure company_name url) w)
      = [classifier; (brochure_messages prompt, None)]
  | inl e =>
      outcome answer (create_brochure company_name url) w = inl e
      /\ chat_requests (trace_of answer (create_brochure company_name url) w)
         = [classifier]
  end.
Proof.
  intros classifier.
  pose proof (get_all_details_chat url w) as Hchat; fold classifier in Hchat.
  unfold outcome, trace_of, create_brochure, get_brochure_user_prompt in *.
  rewrite !run_bind.
  destruct (run answer (get_all_details url) w) as [[[e | details] tr] w1];
    simpl in Hchat |- *; [auto |].
  destruct (answer _ w1) as [[e | completion] w2]; simpl.
  - rewrite !chat_requests_app, Hchat; reflexivity.
  - unfold first_content.
    destruct (choices completion); simpl;
      rewrite !chat_requests_app, Hchat; reflexivity.
Qed.

Lemma prompt_is_slice (company_name url : string) (w : W) (prompt : string) :
  outcome answer (get_brochure_user_prompt company_name url) w = inr prompt ->
  exists details,
    outcome answer (get_all_details url) w = inr details
    /\ prompt = slice_to 5000 (preamble company_name ++ details).
Proof.
  unfold outcome, get_brochure_user_prompt; rewrite run_bind.
  destruct (run answer (get_all_details url) w) as [[[e | details] tr] w1];
    simpl; [discriminate |].
  intros [= <-]; exists details; split; [reflexivity |].
  unfold preamble; rewrite !append_assoc; reflexivity.
Qed.

(** C1. Brochure pipeline: for every company name, URL and world, when
    get_brochure_user_prompt returns, the prompt is the first 5000 characters
    of the preamble followed by the aggregated document (a prefix of that
    text, of length the smaller of 5000 and its length), so it is at most
    5000 characters long, and create_brochure sends it as the user message of
    its request, after the classifier's request; when it raises, no brochure
    request is sent at all. *)
Theorem brochure_prompt_is_bounded (company_name url : string) (w : W) :
  let classifier :=
    (classifier_messages url
       (world_after answer (Website__init__ (PStr url)) w),
     Some (mkFormat "json_object")) in
  match outcome answer (get_brochure_user_prompt company_name url) w with
  | inr prompt =>
      String.length prompt <= 5000
      /\ (exists details rest,
            outcome answer (get_all_details url) w = inr details
            /\ prompt = slice_to 5000 (preamble company_name ++ details)
            /\ preamble company_name ++ details = prompt ++ rest
            /\ String.length prompt
               = Nat.min 5000 (String.length (preamble company_name ++ details)))
      /\ chat_requests (trace_of answer (create_brochure company_name url) w)
         = [classifier; (brochure_messages prompt, None)]
  | inl e =>
      outcome answer (create_brochure company_name url) w = inl e
      /\ chat_requests (trace_of answer (create_brochure company_name url) w)
         = [classifier]
  end.
Proof.
  intros classifier.
  pose proof (create_brochure_run company_name url w) as Hrun.
  pose proof (@prompt_is_slice company_name url w) as Hslice.
  destruct (outcome answer (get_brochure_user_prompt company_name url) w)
    as [e | prompt]; [exact Hrun |].
  destruct (Hslice prompt eq_refl) as [details [Hdetails ->]].
  destruct (slice_to_prefix 5000 (preamble company_name ++ details))
    as [rest Hrest].
  repeat split.
  - rewrite length_slice_to; apply Nat.le_min_l.
  - exists details, rest; repeat split;
      [exact Hdetails | exact Hrest | apply length_slice_to].
  - exact Hrun.
Qed.

(** C4. Link classifier: when the endpoint answers get_links with a reply
    whose content json.loads rejects, get_links raises that decode error; the
    error goes through get_all_details, get_brochure_user_prompt and
    create_brochure uncaught, and the brochure request is never sent. *)
Theorem malformed_reply_aborts (url : string) (w : W)
  (completion : ChatCompletion) (choice : Choice) (rest : list Choice)
  (s : string) (e : exn) :
  classifier_reply url w = inr completion ->
  choices completion = choice :: rest ->
  message_content choice = Some s ->
  json_loads s = inl e ->
  outcome answer (get_links url) w = inl e
  /\ forall (company_name : string) (w0 : W),
       world_after answer (Website__init__ (PStr url)) w0 = w ->
       outcome answer (get_all_details url) w0 = inl e
       /\ outcome answer (create_brochure company_name url) w0 = inl e
       /\ chat_requests
            (trace_of answer (create_brochure company_name url) w0)
          = [(classifier_messages url w, Some (mkFormat "json_object"))].
Proof.
  intros Hreply Hchoices Hcontent Hjson.
  assert (Hlinks : outcome answer (get_links url) w = inl e).
  { unfold classifier_reply, classifier_messages in Hreply.
    unfold outcome, get_links.
    destruct (Website_run (PStr url) w) as [tr [Hrun _]].
    rewrite run_bind, Hrun; simpl.
    destruct (answer _ (world_after answer (Website__init__ (PStr url)) w))
      as [r w2].
    simpl in Hreply; subst r; simpl.
    unfold first_content; rewrite Hchoices; simpl.
    rewrite Hcontent, Hjson; reflexivity. }
  split; [exact Hlinks |].
  intros company_name w0 Hw0.
  assert (Hdetails : outcome answer (get_all_details url) w0 = inl e).
  { unfold outcome in *; unfold get_all_details.
    destruct (Website_run (PStr url) w0) as [tr [Hrun _]].
    rewrite run_bind, Hrun, Hw0, run_bind.
    destruct (run answer (get_links url) w) as [[r tr2] w2].
    simpl in Hlinks; subst r; reflexivity. }
  split; [exact Hdetails |].
  pose proof (create_brochure_run company_name url w0) as Hbrochure.
  rewrite Hw0 in Hbrochure.
  unfold outcome in Hdetails.
  unfold outcome at 1, get_brochure_user_prompt in Hbrochure.
  rewrite run_bind in Hbrochure.
  destruct (run answer (get_all_details url) w0) as [[r tr] w1].
  simpl in Hdetails; subst r.
  exact Hbrochure.
Qed.


Lemma wanted_by_url (c c' : LinkClassification) :
  link_url c = link_url c' -> wanted c = wanted c'.
Proof. unfold wanted; intros ->; reflexivity. Qed.

(** C5. Content Aggregator: on a reply that decodes to the classifications
    cls, get_all_details fetches the landing page (twice: once itself, once
    inside get_links) and then exactly the classifications whose url is
    non-empty, is not the single character / and is longer than one
    character, in order; a classification of the reply is fetched if and only
    if it is such a one; one whose url is / makes the loop run as if it were
    not in the list. *)
Theorem follows_exactly_the_wanted_links (url : string) (w : W)
  (reply : pyval) (cls : list LinkClassification) :
  let w1 := world_after answer (Website__init__ (PStr url)) w in
  outcome answer (get_links url) w1 = inr reply ->
  decodes reply cls ->
  fetched_urls (trace_of answer (get_all_details url) w)
    = PStr url :: PStr url
        :: map (fun c => PStr (link_url c)) (filter wanted cls)
  /\ (forall c, In c cls ->
        (In (PStr (link_url c))
            (skipn 2 (fetched_urls (trace_of answer (get_all_details url) w)))
         <-> wanted c = true))
  /\ (forall v c items result w',
        classifies v c -> link_url c = "/" ->
        run answer (for_links (v :: items) result) w'
        = run answer (for_links items result) w').
Proof.
  intros w1 Hreply Hdecodes.
  destruct (get_all_details_run url w Hreply Hdecodes) as [_ Hfetched].
  split; [exact Hfetched |].
  split.
  - intros c Hc; rewrite Hfetched; cbn [skipn].
    rewrite in_map_iff; split.
    + intros [c' [[= Hurl] Hc']].
      apply filter_In in Hc' as [_ Hwanted].
      rewrite <- Hwanted; apply wanted_by_url; congruence.
    + intros Hwanted; exists c; split; [reflexivity |].
      apply filter_In; auto.
  - intros v c items result w' Hvc Hslash.
    cbn [for_links].
    rewrite (followed_classified Hvc).
    unfold wanted; rewrite Hslash; reflexivity.
Qed.

(** C6. Content Aggregator: on a reply that decodes to the classifications
    cls, get_all_details returns the label Landing page: and the contents of
    the landing page, followed, for each wanted classification in the order
    of the reply and as many times as it occurs there, by two newlines, the
    classification's type, a newline and the contents of the page fetched at
    its url. *)
Theorem aggregate_in_classification_order (url : string) (w : W)
  (reply : pyval) (cls : list LinkClassification) :
  let w1 := world_after answer (Website__init__ (PStr url)) w in
  let w3 := snd (answer (Print ("Found links: " ++ str reply))
                   (world_after answer (get_links url) w1)) in
  outcome answer (get_links url) w1 = inr reply ->
  decodes reply cls ->
  outcome answer (get_all_details url) w
    = inr (("Landing page:" ++ nl)
             ++ get_contents (page_at (PStr url) w)
             ++ sections (filter wanted cls) w3)
  /\ outcome answer (Website__init__ (PStr url)) w
     = inr (page_at (PStr url) w).
Proof.
  intros w1 w3 Hreply Hdecodes.
  destruct (get_all_details_run url w Hreply Hdecodes) as [Hout _].
  split; [exact Hout |].
  destruct (Website_run (PStr url) w) as [tr [Hrun _]].
  unfold outcome; rewrite Hrun; reflexivity.
Qed.

(** *** The page fetcher *)

(** C7. Brochure builder, Page Fetcher: when the fetch of a URL fails,
    Website(url) does not raise; it prints the line Error fetching url: error
    and returns the page with the fields set by __init__: the title No title
    found, an empty text and no links; a followed link whose fetch fails adds
    its label and that empty page to the document and the loop goes on with
    the next link. *)
Theorem failed_fetch_leaves_defaults (u : pyval) (w : W) (e : exn) :
  fetch_fails u w e ->
  outcome answer (Website__init__ u) w = inr (blank u)
  /\ printed_lines (trace_of answer (Website__init__ u) w)
     = ["Error fetching " ++ str u ++ ": " ++ exn_str e]
  /\ (forall v c items result w0,
        classifies v c -> wanted c = true ->
        u = PStr (link_url c) ->
        snd (answer (SleepUniform 1 2) w0) = w ->
        outcome answer (for_links (v :: items) result) w0
        = outcome answer
            (for_links items
               ((result ++ (nl ++ nl ++ link_type c ++ nl))
                  ++ get_contents (blank u)))
            (world_after answer (Website__init__ u) w)).
Proof.
  intros Hfail.
  assert (Hrun : outcome answer (Website__init__ u) w = inr (blank u)
                 /\ printed_lines (trace_of answer (Website__init__ u) w)
                    = ["Error fetching " ++ str u ++ ": " ++ exn_str e]).
  { unfold fetch_fails, page_response in Hfail.
    unfold outcome, trace_of.
    unfold Website__init__, _fetch_and_parse, get_headers, check_status; simpl.
    simpl in Hfail.
    destruct (answer (RandomChoice 3) w) as [i w0]; simpl.
    destruct (answer (RequestsGet u _ 10) w0) as [[e' | response] w1];
      simpl in *.
    - subst e'.
      destruct (answer (Print _) w1) as [[] w2]; simpl; auto.
    - rewrite Hfail; simpl.
      destruct (answer (Print _) w1) as [[] w2]; simpl; auto. }
  destruct Hrun as [Hout Hprinted].
  repeat split; [exact Hout | exact Hprinted |].
  intros v c items result w0 Hvc Hwanted Hu Hw.
  rewrite (for_links_step items result w0 Hvc Hwanted); cbn zeta.
  rewrite Hw, <- Hu.
  unfold page_at; rewrite Hout; reflexivity.
Qed.


(** After the loop over [soup.body([...])], [soup.body] is the body the
    loop went through: the text is read from it. *)
Remark body_after_decompose (doc : soup) (body : node) :
  find "body" doc = Some body ->
  exists doc',
    edit_first_in "body" (decompose_all NOISE) doc = Some doc'
    /\ find "body" doc' = Some (decompose_all NOISE body).
Proof. apply find_after_edit. Qed.

Lemma hrefs_by_label (doc : soup) :
  hrefs doc = flat_map target (others NOISE (flat_map tags_of doc)).
Proof.
  unfold hrefs, find_all, others.
  induction (flat_map tags_of doc) as [| t tags IH]; [reflexivity |].
  cbn [filter map].
  destruct t as [s | name attrs contents].
  - cbn [is_named label named fst existsb negb filter flat_map app]; exact IH.
  - cbn [is_named label]; unfold named; cbn [fst existsb].
    destruct (String.eqb name "a") eqn:Ha.
    + apply String.eqb_eq in Ha; subst name.
      cbn; rewrite IH; reflexivity.
    + rewrite orb_false_l.
      destruct (negb _); cbn [filter flat_map]; [| exact IH].
      unfold target at 1; cbn [fst]; rewrite Ha; exact IH.
Qed.

Lemma anchor_targets_by_label (doc : soup) :
  anchor_targets doc = flat_map target (others NOISE (flat_map tags_of doc)).
Proof.
  unfold anchor_targets, others.
  induction (flat_map tags_of doc) as [| t tags IH]; [reflexivity |].
  cbn [flat_map map filter]; rewrite IH.
  destruct t as [s | name attrs contents].
  - reflexivity.
  - cbn [href_target label]; unfold named; cbn [fst existsb].
    destruct (String.eqb name "a") eqn:Ha.
    + apply String.eqb_eq in Ha; subst name; reflexivity.
    + destruct (negb _); cbn [flat_map app]; [| reflexivity].
      unfold target at 2; cbn [fst]; rewrite Ha; reflexivity.
Qed.

(** C8. Brochure builder, Page Fetcher: when the fetch succeeds and the
    parser gives a document of the shape html.parser builds, the links of
    the page are the href values of all the anchor elements of the document
    that have a non-empty one, in document order, each as often as it occurs
    and as it is written. *)
Theorem links_are_the_anchor_targets (u : pyval) (w : W)
  (response : Response) (doc : soup) :
  page_response u w = inr response ->
  raise_for_status response = None ->
  parse_html (content response) = inr doc ->
  html_parser_shape doc = true ->
  exists site,
    outcome answer (Website__init__ u) w = inr site
    /\ get_website_links site = anchor_targets doc.
Proof.
  intros Hget Hstatus Hparse Hshape.
  unfold page_response in Hget.
  unfold outcome, Website__init__, _fetch_and_parse, get_headers, check_status.
  simpl; simpl in Hget.
  destruct (answer (RandomChoice 3) w) as [i w0]; simpl.
  destruct (answer (RequestsGet u _ 10) w0) as [r w1].
  simpl in Hget; subst r; simpl.
  rewrite Hstatus; simpl.
  rewrite Hparse; simpl.
  destruct (find "body" doc) as [body |]; simpl.
  - eexists; split; [reflexivity |].
    unfold get_website_links; cbn [links set_links].
    rewrite hrefs_by_label, anchor_targets_by_label.
    destruct (edit_first_in "body" (decompose_all NOISE) doc) as [doc' |] eqn:Hedit;
      [| reflexivity].
    rewrite (edit_first_in_others NOISE "body" doc Hshape Hedit); reflexivity.
  - eexists; split; [reflexivity |].
    unfold get_website_links; cbn [links set_links].
    rewrite hrefs_by_label, anchor_targets_by_label; reflexivity.
Qed.

End facts.
(** *** The theorems at work in the example world *)

Lemma acme_reply_decodes : decodes Example.reply_value acme_links.
Proof.
  exists [("links", PList Example.reply_links)], Example.reply_links.
  split; [reflexivity |]; split; [reflexivity |].
  repeat (constructor; [eexists; repeat split; reflexivity |]).
  constructor.
Defined.

(** On the long site the document is cut: the prompt has exactly 5000
    characters, and the text aggregated is longer. *)
Example brochure_prompt_is_bounded_example :
  match
    outcome Example.scripted
      (get_brochure_user_prompt (H := Example.example_library) "Acme" acme)
      Example.long_site,
    outcome Example.scripted
      (get_all_details (H := Example.example_library) acme)
      Example.long_site
  with
  | inr prompt, inr details =>
      String.length prompt = 5000
      /\ Nat.ltb 5000 (String.length details) = true
  | _, _ => False
  end.
Proof. vm_compute; split; reflexivity. Qed.

Lemma malformed_reply_aborts_witness :
  outcome Example.scripted
    (create_brochure (H := Example.example_library) "Acme" acme)
    Example.classifier_chatty
  = inl Example.JSONDecodeError.
Proof.
  refine (proj1 (proj2 (proj2 (@malformed_reply_aborts
            Example.example_library _ Example.scripted acme
            Example.classifier_chatty
            (Example.completion "Sure! Here are the links")
            (mkChoice (Some "Sure! Here are the links")) []
            "Sure! Here are the links" Example.JSONDecodeError
            _ _ _ _) "Acme" Example.classifier_chatty _)));
    reflexivity.
Defined.

Lemma follows_exactly_the_wanted_links_witness :
  fetched_urls
    (trace_of Example.scripted
       (get_all_details (H := Example.example_library) acme) Example.online)
  = [ PStr acme; PStr acme;
      PStr "https://acme.test/about";
      PStr "https://acme.test/careers";
      PStr "https://acme.test/about" ].
Proof.
  refine (proj1 (@follows_exactly_the_wanted_links
            Example.example_library _ Example.scripted acme Example.online
            Example.reply_value acme_links _ acme_reply_decodes)).
  reflexivity.
Defined.

Lemma aggregate_in_classification_order_witness :
  outcome Example.scripted
    (get_all_details (H := Example.example_library) acme) Example.online
  = inr (("Landing page:" ++ nl)
           ++ get_contents
                (page_at (L := Example.example_library) Example.scripted
                   (PStr acme) Example.online)
           ++ sections (L := Example.example_library) Example.scripted
                [ mkLink "about page" "https://acme.test/about";
                  mkLink "careers page" "https://acme.test/careers";
                  mkLink "about page" "https://acme.test/about" ]
                Example.online).
Proof.
  refine (proj1 (@aggregate_in_classification_order
            Example.example_library _ Example.scripted acme Example.online
            Example.reply_value acme_links _ acme_reply_decodes)).
  reflexivity.
Defined.

Lemma failed_fetch_leaves_defaults_witness :
  fetch_fails (L := Example.example_library) Example.scripted
    (PStr "https://acme.test/careers") Example.online Example.ConnectionError
  /\ outcome Example.scripted
       (Website__init__ (H := Example.example_library)
          (PStr "https://acme.test/careers")) Example.online
     = inr (mkWebsite (PStr "https://acme.test/careers")
              "No title found" EmptyString []).
Proof.
  split; [reflexivity |].
  refine (proj1 (@failed_fetch_leaves_defaults
            Example.example_library _ Example.scripted
            (PStr "https://acme.test/careers") Example.online
            Example.ConnectionError _)).
  reflexivity.
Defined.

Lemma links_are_the_anchor_targets_witness :
  html_parser_shape Example.home_doc = true
  /\ exists site,
       outcome Example.scripted
         (Website__init__ (H := Example.example_library) (PStr acme))
         Example.online = inr site
       /\ get_website_links site = anchor_targets Example.home_doc.
Proof.
  split; [reflexivity |].
  refine (@links_are_the_anchor_targets
            Example.example_library _ Example.scripted (PStr acme)
            Example.online (mkResponse 200 Example.home_html)
            Example.home_doc _ _ _ _);
    reflexivity.
Defined.

(** The loop's test on replies of other shapes. *)
Example followed_examples :
  followed (Example.link "about page" "https://acme.test/about") = Ret true
  /\ followed (Example.link "home page" "/") = Ret false
  /\ followed (Example.link "empty" EmptyString) = Ret false
  /\ followed (Example.link "short" "x") = Ret false
  /\ followed (PDict [("type", PStr "about page")]) = Raise (KeyError "url")
  /\ followed (PDict [("url", PNone)]) = Ret false
  /\ followed (PDict [("url", PInt 7)]) = Raise (NoLen (PInt 7))
  /\ followed (PDict [("url", PList [PStr "a"; PStr "b"])]) = Ret true
  /\ followed (PStr "https://acme.test/about")
     = Raise (NotSubscriptable (PStr "https://acme.test/about")).
Proof. repeat split. Qed.

(** The home page of the example: its links, and the document the
    aggregator builds from it. *)
Example acme_anchor_targets :
  anchor_targets Example.home_doc = ["/about"; "jobs.html"; "/about"].
Proof. reflexivity. Qed.

Example acme_details :
  outcome Example.scripted
    (get_all_details (H := Example.example_library) acme) Example.online
  = inr ("Landing page:" ++ nl ++
         "Webpage Title:" ++ nl ++ "Acme" ++ nl ++
         "Webpage Contents:" ++ nl ++
         "About" ++ nl ++ "nowhere" ++ nl ++ "Jobs" ++ nl ++ "anchor" ++ nl ++
         "About us" ++ nl ++ nl ++
         nl ++ nl ++ "about page" ++ nl ++
         "Webpage Title:" ++ nl ++ "Acme" ++ nl ++
         "Webpage Contents:" ++ nl ++
         "About" ++ nl ++ "nowhere" ++ nl ++ "Jobs" ++ nl ++ "anchor" ++ nl ++
         "About us" ++ nl ++ nl ++
         nl ++ nl ++ "careers page" ++ nl ++
         "Webpage Title:" ++ nl ++ "No title found" ++ nl ++
         "Webpage Contents:" ++ nl ++ nl ++ nl ++
         nl ++ nl ++ "about page" ++ nl ++
         "Webpage Title:" ++ nl ++ "Acme" ++ nl ++
         "Webpage Contents:" ++ nl ++
         "About" ++ nl ++ "nowhere" ++ nl ++ "Jobs" ++ nl ++ "anchor" ++ nl ++
         "About us" ++ nl ++ nl).
Proof. vm_compute; reflexivity. Qed.

End BrochureFacts.

(* ================================================================== *)
(** ** When the completion call fails *)

Section completion_failure.
Context {L : Library} {W : Type}.
Variable answer : forall X : Type, event X -> W -> X * W.

(** C3, as the code has it. Summarizer: whatever the completion call does,
    summarize returns. When the call raises e, and when the reply holds no
    choice (an IndexError), it returns the text Error Generating Summary
    with the failure text. Brochure builder: create_brochure has no handler;
    when its completion call raises e, create_brochure raises e. *)
Theorem completion_failure_handling (e : exn) :
  (forall self url w site tr w1,
     run answer (Summarizer.Website__init__ url) w = (inr site, tr, w1) ->
     fst (answer
            (ChatCompletionsCreate (Summarizer.client self) Summarizer.MODEL
               (Summarizer._create_messages site) None) w1) = inl e ->
     outcome answer (Summarizer.summarize self url) w
     = inr (Some (SummarizerRuns.summary_error e)))
  /\ (forall self url w site tr w1,
        run answer (Summarizer.Website__init__ url) w = (inr site, tr, w1) ->
        fst (answer
               (ChatCompletionsCreate (Summarizer.client self) Summarizer.MODEL
                  (Summarizer._create_messages site) None) w1)
        = inr (mkCompletion []) ->
        outcome answer (Summarizer.summarize self url) w
        = inr (Some (SummarizerRuns.summary_error IndexError)))
  /\ (forall self url w,
        exists summary,
          outcome answer (Summarizer.summarize self url) w = inr summary)
  /\ (forall company_name url w prompt tr w1,
        run answer (Brochure.get_brochure_user_prompt company_name url) w
        = (inr prompt, tr, w1) ->
        fst (answer
               (ChatCompletionsCreate
                  (mkOpenAI Brochure.OLLAMA_URL Brochure.OLLAMA_KEY)
                  Brochure.MODEL
                  [ mkMessage system Brochure.system_prompt;
                    mkMessage user prompt ]
                  None) w1) = inl e ->
        outcome answer (Brochure.create_brochure company_name url) w = inl e).
Proof.
  repeat split.
  - intros self url w site tr w1 Hsite Hreply.
    unfold outcome, Summarizer.summarize; rewrite run_bind, Hsite; simpl.
    destruct (answer _ w1) as [r w2]; simpl in Hreply; subst r; reflexivity.
  - intros self url w site tr w1 Hsite Hreply.
    unfold outcome, Summarizer.summarize; rewrite run_bind, Hsite; simpl.
    destruct (answer _ w1) as [r w2]; simpl in Hreply; subst r; reflexivity.
  - intros self url w.
    destruct (SummarizerFacts.Website_total answer url w) as [site [Hsite _]].
    exact (proj2 (SummarizerFacts.summarize_runs answer self url w Hsite)).
  - intros company_name url w prompt tr w1 Hprompt Hreply.
    unfold outcome, Brochure.create_brochure; rewrite run_bind, Hprompt; simpl.
    destruct (answer _ w1) as [r w2]; simpl in Hreply; subst r; reflexivity.
Qed.

End completion_failure.

(** C3 does not hold of the brochure builder: in a world where the
    classifier is answered and the brochure request then fails with a
    connection error, create_brochure returns no text; it raises that
    error. *)
Lemma create_brochure_propagates_failure :
  Example.on_chat Example.endpoint_fails_late
    [ mkMessage system Brochure.system_prompt;
      mkMessage user
        match
          outcome Example.scripted
            (Brochure.get_brochure_user_prompt (H := Example.example_library)
               "Acme" "https://acme.test/")
            Example.endpoint_fails_late
        with
        | inr prompt => prompt
        | inl _ => EmptyString
        end ]
    None
  = inl Example.APIConnectionError
  /\ outcome Example.scripted
       (Brochure.create_brochure (H := Example.example_library)
          "Acme" "https://acme.test/")
       Example.endpoint_fails_late
     = inl Example.APIConnectionError
  /\ ~ (exists text,
          outcome Example.scripted
            (Brochure.create_brochure (H := Example.example_library)
               "Acme" "https://acme.test/")
            Example.endpoint_fails_late
          = inr text).
Proof.
  assert (H : outcome Example.scripted
                (Brochure.create_brochure (H := Example.example_library)
                   "Acme" "https://acme.test/")
                Example.endpoint_fails_late
              = inl Example.APIConnectionError)
    by (vm_compute; reflexivity).
  split; [reflexivity |].
  split; [exact H |].
  intros [text Htext]; rewrite H in Htext; discriminate.
Qed.

Lemma completion_failure_handling_witness :
  outcome Example.scripted
    (Summarizer.summarize (H := Example.example_library)
       Summarizer.WebsiteSummarizer__init__ "https://acme.test/")
    Example.endpoint_down
  = inr (Some ("## Error Generating Summary" ++ nl ++
               "Failed to generate summary: Connection error."))
  /\ outcome Example.scripted
       (Summarizer.summarize (H := Example.example_library)
          Summarizer.WebsiteSummarizer__init__ "https://acme.test/")
       Example.endpoint_empty
     = inr (Some ("## Error Generating Summary" ++ nl ++
                  "Failed to generate summary: list index out of range"))
  /\ outcome Example.scripted
       (Brochure.create_brochure (H := Example.example_library)
          "Acme" "https://acme.test/")
       Example.endpoint_fails_late
     = inl Example.APIConnectionError.
Proof.
  destruct (@completion_failure_handling Example.example_library _
              Example.scripted Example.APIConnectionError)
    as [Hraise [Hempty [_ Hbrochure]]].
  split; [| split].
  - eapply (Hraise Summarizer.WebsiteSummarizer__init__ "https://acme.test/"
              Example.endpoint_down); reflexivity.
  - eapply (Hempty Summarizer.WebsiteSummarizer__init__ "https://acme.test/"
              Example.endpoint_empty); reflexivity.
  - eapply (Hbrochure "Acme" "https://acme.test/" Example.endpoint_fails_late);
      reflexivity.
Defined.

(* ================================================================== *)
(** ** More about the code *)

Lemma length_append (s1 s2 : string) :
  String.length (s1 ++ s2) = String.length s1 + String.length s2.
Proof. induction s1 as [| c s1 IH]; simpl; [| rewrite IH]; reflexivity. Qed.

(** A slice that is long enough is the whole string. *)
Lemma slice_to_all (n : nat) (s : string) :
  String.length s <= n -> slice_to n s = s.
Proof.
  unfold slice_to; revert n; induction s as [| c s IH]; intros [| n] Hlen;
    simpl in *; try reflexivity; try lia.
  rewrite IH by lia; reflexivity.
Qed.

(** A slice within the first of two strings does not read the second. *)
Lemma slice_to_app_left (n : nat) (s t : string) :
  n <= String.length s -> slice_to n (s ++ t) = slice_to n s.
Proof.
  unfold slice_to; revert n; induction s as [| c s IH]; intros [| n] Hlen;
    simpl in *; try reflexivity; try lia.
  - destruct t; reflexivity.
  - rewrite IH by lia; reflexivity.
Qed.

Lemma printed_lines_app (tr1 tr2 : trace) :
  printed_lines (tr1 ++ tr2)%list
  = (printed_lines tr1 ++ printed_lines tr2)%list.
Proof.
  induction tr1 as [| [X ev x] tr1 IH]; simpl; [reflexivity |].
  destruct ev; simpl; rewrite IH; reflexivity.
Qed.

Lemma pacing_app (tr1 tr2 : trace) :
  pacing (tr1 ++ tr2)%list = (pacing tr1 ++ pacing tr2)%list.
Proof.
  induction tr1 as [| [X ev x] tr1 IH]; simpl; [reflexivity |].
  destruct ev; simpl; rewrite IH; reflexivity.
Qed.

(** *** The loop that decomposes the noise elements *)

Section decompose_facts.
Variable names : list string.

(** No element with one of the names is left under the element. *)
Lemma decompose_all_clean (n : node) :
  find_all names (contents_of (decompose_all names n)) = [].
Proof.
  unfold find_all.
  induction n as [s | name attrs contents IH] using node_nested_ind;
    [reflexivity |].
  cbn [decompose_all contents_of].
  induction IH as [| c rest Hc _ IHrest]; [reflexivity |].
  cbn [kept].
  destruct (is_named names c) eqn:Hnamed; [exact IHrest |].
  cbn [flat_map]; rewrite filter_app, IHrest, app_nil_r.
  destruct c as [s | cname cattrs ccontents]; [reflexivity |].
  cbn [decompose_all tags_of filter].
  cbn [is_named] in Hnamed |- *; rewrite Hnamed.
  exact Hc.
Qed.

(** An element that holds no element with one of the names is left as it
    is. *)
Lemma decompose_all_nothing (n : node) :
  find_all names (contents_of n) = [] -> decompose_all names n = n.
Proof.
  unfold find_all.
  induction n as [s | name attrs contents IH] using node_nested_ind;
    [reflexivity |].
  cbn [decompose_all contents_of]; intros Hclean; f_equal.
  induction IH as [| c rest Hc _ IHrest]; [reflexivity |].
  cbn [flat_map] in Hclean; rewrite filter_app in Hclean.
  apply app_eq_nil in Hclean as [Hhead Hrest].
  cbn [kept]; rewrite (IHrest Hrest).
  destruct c as [s | cname cattrs ccontents]; [reflexivity |].
  cbn [tags_of filter] in Hhead.
  destruct (is_named names (Tag cname cattrs ccontents)); [discriminate |].
  rewrite (Hc Hhead); reflexivity.
Qed.

End decompose_facts.

Module SummarizerMore.
Import Summarizer SummarizerRuns.

Section more.
Context {L : Library} {W : Type}.
Variable answer : forall X : Type, event X -> W -> X * W.

(** The calls of [Website(url)]: one request, whatever comes of it. *)
Lemma Website_trace (url : string) (w : W) :
  exists site response w1,
    run answer (Website__init__ url) w
    = (inr site, [Call (RequestsGet (PStr url) HEADERS 10) response], w1).
Proof.
  unfold Website__init__, check_status; simpl.
  destruct (answer (RequestsGet (PStr url) HEADERS 10) w)
    as [[e | response] w1]; simpl; [eauto |].
  destruct (raise_for_status response) as [e |]; simpl; [eauto |].
  destruct (parse_html (content response)) as [e | doc]; simpl; eauto.
Qed.

Lemma summarize_trace (self : WebsiteSummarizer) (url : string) (w : W) :
  exists site response reply summary,
    outcome answer (Website__init__ url) w = inr site
    /\ outcome answer (summarize self url) w = inr summary
    /\ trace_of answer (summarize self url) w
       = [ Call (RequestsGet (PStr url) HEADERS 10) response;
           Call (ChatCompletionsCreate (client self) MODEL
                   (_create_messages site) None) reply ].
Proof.
  destruct (Website_trace url w) as [site [response [w1 Hrun]]].
  exists site, response.
  unfold outcome, trace_of, summarize; rewrite run_bind, Hrun; simpl.
  destruct (answer _ w1) as [[e | completion] w2]; simpl; [eauto |].
  unfold first_content.
  destruct (choices completion) as [| choice rest]; simpl; eauto.
Qed.

(** X1. summarize, in every world and whatever the fetch and the endpoint
    do, makes exactly two calls: one GET of the URL with the fixed headers
    and a timeout of 10, then one completion request with the messages built
    from the fetched page; it prints nothing and tries nothing twice. *)
Theorem summarize_makes_two_calls (self : WebsiteSummarizer) (url : string)
  (w : W) :
  exists site response reply,
    outcome answer (Website__init__ url) w = inr site
    /\ trace_of answer (summarize self url) w
       = [ Call (RequestsGet (PStr url) HEADERS 10) response;
           Call (ChatCompletionsCreate (client self) MODEL
                   (_create_messages site) None) reply ].
Proof.
  destruct (summarize_trace self url w)
    as [site [response [reply [summary [Hsite [_ Htrace]]]]]].
  eauto.
Qed.

(** X2. display_summary never raises and prints exactly one line: the
    value summarize returned, which is the text None when the reply's
    content is None. *)
Theorem display_summary_prints_once (self : WebsiteSummarizer)
  (url : string) (w : W) :
  exists summary,
    outcome answer (summarize self url) w = inr summary
    /\ outcome answer (display_summary self url) w = inr tt
    /\ printed_lines (trace_of answer (display_summary self url) w)
       = [str_or_None summary].
Proof.
  destruct (summarize_trace self url w)
    as [site [response [reply [summary [_ [Hout Htrace]]]]]].
  exists summary; split; [exact Hout |].
  unfold outcome, trace_of, display_summary in *; rewrite run_bind.
  destruct (run answer (summarize self url) w) as [[r tr] w1].
  simpl in Hout, Htrace; subst r tr; simpl.
  destruct (answer (Print (str_or_None summary)) w1) as [[] w2]; simpl; auto.
Qed.

(** X3. Summarizer, Website: when the fetch succeeds and the document has a
    body, the text is read from the body after the loop took the noise
    elements out: no script, style, img, input, nav or footer element is
    left under it; a body that holds none of them is read as it is. *)
Theorem body_text_without_noise (url : string) (w : W)
  (response : Response) (doc : soup) (body : node) :
  page_response answer url w = inr response ->
  raise_for_status response = None ->
  parse_html (content response) = inr doc ->
  find "body" doc = Some body ->
  exists cleaned site,
    outcome answer (Website__init__ url) w = inr site
    /\ text site = get_text cleaned
    /\ find_all NOISE (contents_of cleaned) = []
    /\ (find_all NOISE (contents_of body) = [] -> cleaned = body).
Proof.
  intros Hget Hstatus Hparse Hbody.
  exists (decompose_all NOISE body).
  unfold page_response in Hget.
  unfold outcome, Website__init__, check_status; simpl.
  destruct (answer (RequestsGet (PStr url) HEADERS 10) w) as [r w1].
  simpl in Hget; subst r; simpl.
  rewrite Hstatus; simpl.
  rewrite Hparse; simpl.
  rewrite Hbody.
  eexists; split; [reflexivity |]; split; [reflexivity |]; split.
  - apply decompose_all_clean.
  - apply decompose_all_nothing.
Qed.

(** X4. Summarizer: the user message summarize sends holds the whole body
    text of the page at its end and is not cut: it has 208 characters more
    than the title and the text together. *)
Theorem summarizer_prompt_holds_whole_text (self : WebsiteSummarizer)
  (url : string) (w : W) (site : Website) :
  outcome answer (Website__init__ url) w = inr site ->
  exists message head,
    chat_requests (trace_of answer (summarize self url) w)
    = [([mkMessage system SYSTEM_PROMPT; mkMessage user message], None)]
    /\ message = head ++ text site
    /\ String.length message
       = 208 + String.length (str_or_None (title site))
         + String.length (text site).
Proof.
  intros Hsite.
  destruct (SummarizerFacts.summarize_runs answer self url w Hsite)
    as [Hchat _].
  exists (_create_user_prompt site).
  eexists; split; [exact Hchat |]; split.
  - unfold _create_user_prompt.
    rewrite <- !append_assoc; reflexivity.
  - unfold _create_user_prompt.
    rewrite !length_append; simpl; lia.
Qed.

(** X5. Summarizer, Website: when the fetch succeeds and the parser raises,
    the page carries the same markers as a failed fetch: the title Error:
    and the text Failed to fetch website content:, both with the parser's
    message. *)
Theorem parser_failure_is_marked (url : string) (w : W)
  (response : Response) (e : exn) :
  page_response answer url w = inr response ->
  raise_for_status response = None ->
  parse_html (content response) = inl e ->
  outcome answer (Website__init__ url) w
  = inr (mkWebsite url (Some ("Error: " ++ exn_str e))
           ("Failed to fetch website content: " ++ exn_str e)).
Proof.
  intros Hget Hstatus Hparse.
  unfold page_response in Hget.
  unfold outcome, Website__init__, check_status; simpl.
  destruct (answer (RequestsGet (PStr url) HEADERS 10) w) as [r w1].
  simpl in Hget; subst r; simpl.
  rewrite Hstatus; simpl.
  rewrite Hparse; reflexivity.
Qed.

End more.
(** *** The theorems at work in the example world *)

Lemma body_text_without_noise_witness :
  exists cleaned site,
    outcome Example.scripted
      (Website__init__ (H := Example.example_library) "https://acme.test/")
      Example.online = inr site
    /\ text site = Example.example_get_text cleaned
    /\ find_all NOISE (contents_of cleaned) = []
    /\ (find_all NOISE (contents_of MoreExamples.home_body) = []
        -> cleaned = MoreExamples.home_body).
Proof.
  refine (@body_text_without_noise Example.example_library _
            Example.scripted "https://acme.test/" Example.online
            (mkResponse 200 Example.home_html) Example.home_doc
            MoreExamples.home_body _ _ _ _);
    reflexivity.
Defined.

Lemma summarizer_prompt_holds_whole_text_witness :
  exists message head,
    chat_requests
      (trace_of Example.scripted
         (summarize (H := Example.example_library) WebsiteSummarizer__init__
            "https://acme.test/plain") Example.online)
    = [([mkMessage system SYSTEM_PROMPT; mkMessage user message], None)]
    /\ message = head ++ "No body content found"
    /\ String.length message = 208 + 14 + 21.
Proof.
  refine (@summarizer_prompt_holds_whole_text Example.example_library _
            Example.scripted WebsiteSummarizer__init__
            "https://acme.test/plain" Example.online
            (mkWebsite "https://acme.test/plain" (Some "No title found")
               "No body content found") _).
  reflexivity.
Defined.

Lemma parser_failure_is_marked_witness :
  outcome Example.scripted
    (Website__init__ (H := MoreExamples.rejecting_library)
       "https://acme.test/") Example.online
  = inr (mkWebsite "https://acme.test/"
           (Some "Error: the document is empty")
           "Failed to fetch website content: the document is empty").
Proof.
  refine (@parser_failure_is_marked MoreExamples.rejecting_library _
            Example.scripted "https://acme.test/" Example.online
            (mkResponse 200 Example.home_html)
            MoreExamples.ParserRejectedMarkup _ _ _);
    reflexivity.
Defined.

End SummarizerMore.

Module BrochureMore.
Import Brochure BrochureRuns BrochureCalls.

Section more.
Context {L : Library} {W : Type}.
Variable answer : forall X : Type, event X -> W -> X * W.

Local Abbreviation page_at := (page_at answer).
Local Abbreviation sections := (sections answer).
Local Abbreviation classifier_messages := (classifier_messages answer).
Local Abbreviation classifier_reply := (classifier_reply answer).
Local Abbreviation page_response := (page_response answer).
Local Abbreviation classifier_request := (classifier_request answer).

(** *** The test of the loop *)

Lemma followed_string (entries : list (string * pyval)) (s : string) :
  lookup "url" entries = Some (PStr s) ->
  followed (PDict entries) = Ret (Nat.ltb 1 (String.length s)).
Proof.
  intros Hurl; unfold followed; simpl; rewrite Hurl; simpl.
  destruct s as [| c [| c' s]]; simpl; [reflexivity | |].
  - destruct (Ascii.eqb c "/"); reflexivity.
  - destruct (Ascii.eqb c "/"); reflexivity.
Qed.

(** X6. Brochure builder, the test of the loop: for a link whose url is a
    string, the three tests come to one, the url is longer than one
    character; the type of the link plays no part. *)
Theorem followed_iff_longer_than_one (entries : list (string * pyval))
  (s : string) :
  lookup "url" entries = Some (PStr s) ->
  followed (PDict entries) = Ret (Nat.ltb 1 (String.length s))
  /\ forall type, wanted (mkLink type s) = Nat.ltb 1 (String.length s).
Proof.
  intros Hurl; split; [exact (followed_string entries Hurl) |].
  intros type; unfold wanted; cbn [link_url].
  destruct s as [| c [| c' s]]; simpl; [reflexivity | |].
  - destruct (Ascii.eqb c "/"); reflexivity.
  - destruct (Ascii.eqb c "/"); reflexivity.
Qed.

(** X7. Brochure builder, the test of the loop: it raises exactly on a link
    that is not a dict (a TypeError, the link cannot be subscripted), on a
    dict without url (a KeyError for url), and on a dict whose url is a
    number or a boolean that is true (a TypeError, the url has no len); on
    every other link it answers without raising. *)
Theorem followed_raises_exactly (link : pyval) :
  match link with
  | PDict entries =>
      match lookup "url" entries with
      | None =>
          followed link = Raise (KeyError "url")
          /\ exn_class (KeyError "url") = "KeyError"
      | Some u =>
          match u with
          | PBool _ | PInt _ | PFloat _ =>
              if truthy u then
                followed link = Raise (NoLen u)
                /\ exn_class (NoLen u) = "TypeError"
              else followed link = Ret false
          | _ => exists follow, followed link = Ret follow
          end
      end
  | _ =>
      followed link = Raise (NotSubscriptable link)
      /\ exn_class (NotSubscriptable link) = "TypeError"
  end.
Proof.
  destruct link as [| b | z | f | s | items | entries];
    try (split; reflexivity).
  destruct (lookup "url" entries) as [u |] eqn:Hurl.
  - destruct u as [| b | z | f | s | items | entries'].
    + unfold followed; simpl; rewrite Hurl; simpl; eauto.
    + unfold followed; simpl; rewrite Hurl; simpl.
      destruct b; simpl; auto.
    + unfold followed; simpl; rewrite Hurl; simpl.
      destruct (Z.eqb z 0); simpl; auto.
    + unfold followed; simpl; rewrite Hurl; simpl.
      destruct f; simpl; auto.
    + rewrite (followed_string entries Hurl); eauto.
    + unfold followed; simpl; rewrite Hurl; simpl.
      destruct items; simpl; eauto.
    + unfold followed; simpl; rewrite Hurl; simpl.
      destruct entries'; simpl; eauto.
  - unfold followed; simpl; rewrite Hurl; simpl; auto.
Qed.

(** *** The loop *)

(** One turn of the loop, whatever the link is. *)
Lemma for_links_turn (link : pyval) (rest : list pyval) (result : string)
  (w : W) :
  (exists e tr w1,
     run answer (for_links (link :: rest) result) w = (inl e, tr, w1)
     /\ fetched_urls tr = [] /\ chat_requests tr = [])
  \/ (exists tr result1 w1,
        (forall (r : exn + string) (tr2 : trace) (w2 : W),
           run answer (for_links rest (result ++ result1)) w1 = (r, tr2, w2) ->
           run answer (for_links (link :: rest) result) w
           = (r, (tr ++ tr2)%list, w2))
        /\ chat_requests tr = []).
Proof.
  cbn [for_links].
  destruct (BrochureFacts.followed_pure link) as [[e | follow] ->];
    rewrite BrochureFacts.run_pure_bind.
  - left; exists e, [], w; auto.
  - destruct follow.
    + cbn [trigger bind run].
      destruct (answer (SleepUniform 1 2) w) as [[] w1].
      destruct (BrochureFacts.getitem_pure link "type") as [[e | type] ->];
        rewrite BrochureFacts.run_pure_bind.
      { left; eexists; eexists; eexists; split; [reflexivity |]; auto. }
      destruct (BrochureFacts.getitem_pure link "url") as [[e | u] ->];
        rewrite BrochureFacts.run_pure_bind.
      { left; eexists; eexists; eexists; split; [reflexivity |]; auto. }
      destruct (BrochureFacts.Website_run answer u w1)
        as [tr [Hrun [_ Hchat]]].
      right.
      exists (Call (SleepUniform 1 2) tt :: tr),
             ((nl ++ nl ++ str type ++ nl) ++ get_contents (page_at u w1)),
             (world_after answer (Website__init__ u) w1).
      split; [| exact Hchat].
      intros r tr2 w2 Hrest.
      rewrite run_bind, Hrun.
      rewrite <- append_assoc in Hrest; rewrite Hrest; reflexivity.
    + right; exists [], EmptyString, w; split; [| reflexivity].
      intros r tr2 w2 Hrest.
      rewrite append_empty_r in Hrest; exact Hrest.
Qed.

Lemma for_links_grows (items : list pyval) :
  forall (result : string) (w : W) (r : string),
    outcome answer (for_links items result) w = inr r ->
    exists suffix, r = result ++ suffix.
Proof.
  unfold outcome.
  induction items as [| link rest IH]; intros result w r Hout.
  - injection Hout as <-; exists EmptyString.
    rewrite append_empty_r; reflexivity.
  - destruct (for_links_turn link rest result w)
      as [[e [tr [w1 [Hrun _]]]] | [tr [result1 [w1 [Hturn _]]]]].
    + rewrite Hrun in Hout; discriminate.
    + destruct (run answer (for_links rest (result ++ result1)) w1)
        as [[r' tr2] w2] eqn:Hrest.
      rewrite (Hturn _ _ _ eq_refl) in Hout; cbn [fst] in Hout; subst r'.
      destruct (IH (result ++ result1) w1 r) as [suffix ->];
        [rewrite Hrest; reflexivity |].
      exists (result1 ++ suffix); apply append_assoc.
Qed.

(** X8. Brochure builder, get_all_details: whatever the classifier's reply
    holds, a document that is returned begins with the label Landing page:
    and the contents of the landing page as first fetched; the loop only
    appends to it. *)
Theorem document_begins_with_landing_page (url : string) (w : W)
  (document : string) :
  outcome answer (get_all_details url) w = inr document ->
  exists suffix,
    document
    = ("Landing page:" ++ nl) ++ get_contents (page_at (PStr url) w) ++ suffix.
Proof.
  unfold outcome, get_all_details.
  destruct (BrochureFacts.Website_run answer (PStr url) w)
    as [tr [Hrun _]].
  rewrite run_bind, Hrun, run_bind.
  destruct (run answer (get_links url) _) as [[[e | reply] tr2] w2];
    [discriminate |].
  cbn [trigger bind run].
  destruct (answer (Print _) w2) as [[] w3].
  destruct (BrochureFacts.dict_get_pure reply "links" (PList []))
    as [[e | found] ->]; rewrite BrochureFacts.run_pure_bind;
    [discriminate |].
  destruct (BrochureFacts.iterate_pure found) as [[e | items] ->];
    rewrite BrochureFacts.run_pure_bind; [discriminate |].
  pose proof (@for_links_grows items
                (("Landing page:" ++ nl) ++ get_contents (page_at (PStr url) w))
                w3) as Hgrows.
  unfold outcome in Hgrows.
  destruct (run answer (for_links items _) w3) as [[r tr3] w4].
  cbn [fst]; intros ->.
  destruct (Hgrows document eq_refl) as [suffix ->].
  exists suffix; apply append_assoc.
Qed.


(** *** The page fetcher *)

Lemma Website_calls (u : pyval) (w : W) :
  exists i response tail,
    trace_of answer (Website__init__ u) w
    = Call (RandomChoice 3) i
        :: Call (RequestsGet u
                   [("User-Agent", nth (Nat.modulo i 3) USER_AGENTS EmptyString)]
                   10) response
        :: tail
    /\ (tail = []
        \/ exists e,
             tail = [Call (Print ("Error fetching " ++ str u ++ ": "
                                    ++ exn_str e)) tt]
             /\ page_at u w = blank u).
Proof.
  unfold BrochureRuns.page_at, trace_of, outcome.
  unfold Website__init__, _fetch_and_parse, get_headers, check_status; simpl.
  destruct (answer (RandomChoice 3) w) as [i w0]; simpl.
  destruct (answer (RequestsGet u _ 10) w0) as [[e | response] w1]; simpl.
  - destruct (answer (Print _) w1) as [[] w2]; simpl.
    do 3 eexists; split; [reflexivity | right; eauto].
  - destruct (raise_for_status response) as [e |]; simpl.
    + destruct (answer (Print _) w1) as [[] w2]; simpl.
      do 3 eexists; split; [reflexivity | right; eauto].
    + destruct (parse_html (content response)) as [e | doc]; simpl.
      * destruct (answer (Print _) w1) as [[] w2]; simpl.
        do 3 eexists; split; [reflexivity | right; eauto].
      * destruct (find "body" doc); simpl;
          do 3 eexists; split; try reflexivity; left; reflexivity.
Qed.

Lemma Website_pacing (u : pyval) (w : W) :
  pacing (trace_of answer (Website__init__ u) w) = [Fetch u].
Proof.
  destruct (Website_calls u w) as [i [response [tail [-> Htail]]]].
  destruct Htail as [-> | [e [-> _]]]; reflexivity.
Qed.

(** X9. Brochure builder, Website: in every world it draws one user agent
    and sends one GET with a timeout of 10 and the single header User-Agent,
    whose value is one of the three of the pool; it prints at most one line,
    the error line, and only when the page it returns is the default one. *)
Theorem website_call_discipline (u : pyval) (w : W) :
  exists i response tail,
    trace_of answer (Website__init__ u) w
    = Call (RandomChoice 3) i
        :: Call (RequestsGet u
                   [("User-Agent", nth (Nat.modulo i 3) USER_AGENTS EmptyString)]
                   10) response
        :: tail
    /\ In (nth (Nat.modulo i 3) USER_AGENTS EmptyString) USER_AGENTS
    /\ (tail = []
        \/ exists e,
             tail = [Call (Print ("Error fetching " ++ str u ++ ": "
                                    ++ exn_str e)) tt]
             /\ page_at u w = blank u).
Proof.
  destruct (Website_calls u w) as [i [response [tail [Htrace Htail]]]].
  exists i, response, tail; repeat split; [exact Htrace | | exact Htail].
  apply nth_In; change (List.length USER_AGENTS) with 3.
  apply Nat.mod_upper_bound; discriminate.
Qed.

(** X10. Brochure builder, Website: when the fetch succeeds and the document
    has no body element, the text stays empty (no placeholder), while the
    title is read and the links are the href values of all the anchors of
    the document, in any tree. *)
Theorem page_without_body_keeps_links (u : pyval) (w : W)
  (response : Response) (doc : soup) :
  page_response u w = inr response ->
  raise_for_status response = None ->
  parse_html (content response) = inr doc ->
  find "body" doc = None ->
  exists title,
    outcome answer (Website__init__ u) w
    = inr (mkWebsite u title EmptyString (anchor_targets doc))
    /\ (find "title" doc = None -> title = "No title found").
Proof.
  intros Hget Hstatus Hparse Hbody.
  unfold BrochureRuns.page_response in Hget.
  unfold outcome, Website__init__, _fetch_and_parse, get_headers, check_status.
  simpl; simpl in Hget.
  destruct (answer (RandomChoice 3) w) as [i w0]; simpl.
  destruct (answer (RequestsGet u _ 10) w0) as [r w1].
  simpl in Hget; subst r; simpl.
  rewrite Hstatus; simpl.
  rewrite Hparse; simpl.
  rewrite Hbody; simpl.
  unfold set_links, set_title; simpl.
  rewrite BrochureFacts.hrefs_by_label, <- BrochureFacts.anchor_targets_by_label.
  eexists; split; [reflexivity |].
  intros ->; reflexivity.
Qed.

(** X11. Brochure builder, Website: when the fetch succeeds and the document
    has a body, the text is read from the body after the loop took the noise
    elements out: no script, style, img or input element is left under it
    (nav and footer elements stay); a body that holds none of the four is
    read as it is. *)
Theorem brochure_text_without_noise (u : pyval) (w : W)
  (response : Response) (doc : soup) (body : node) :
  page_response u w = inr response ->
  raise_for_status response = None ->
  parse_html (content response) = inr doc ->
  find "body" doc = Some body ->
  exists cleaned site,
    outcome answer (Website__init__ u) w = inr site
    /\ text site = get_text cleaned
    /\ find_all NOISE (contents_of cleaned) = []
    /\ (find_all NOISE (contents_of body) = [] -> cleaned = body).
Proof.
  intros Hget Hstatus Hparse Hbody.
  exists (decompose_all NOISE body).
  unfold BrochureRuns.page_response in Hget.
  unfold outcome, Website__init__, _fetch_and_parse, get_headers, check_status.
  simpl; simpl in Hget.
  destruct (answer (RandomChoice 3) w) as [i w0]; simpl.
  destruct (answer (RequestsGet u _ 10) w0) as [r w1].
  simpl in Hget; subst r; simpl.
  rewrite Hstatus; simpl.
  rewrite Hparse; simpl.
  rewrite Hbody; simpl.
  eexists; split; [reflexivity |]; split; [reflexivity |]; split.
  - apply decompose_all_clean.
  - apply decompose_all_nothing.
Qed.

(** *** The link classifier *)

Lemma get_links_calls (url : string) (w : W) :
  run answer (get_links url) w
  = (match classifier_reply url w with
     | inl e => inl e
     | inr completion =>
         match choices completion with
         | [] => inl IndexError
         | choice :: _ =>
             match message_content choice with
             | Some s => json_loads s
             | None => inl JSONTypeError
             end
         end
     end,
     (trace_of answer (Website__init__ (PStr url)) w
        ++ [Call (classifier_request url w) (classifier_reply url w)])%list,
     snd (answer (classifier_request url w)
            (world_after answer (Website__init__ (PStr url)) w))).
Proof.
  unfold BrochureRuns.classifier_reply, BrochureCalls.classifier_request,
    BrochureRuns.classifier_messages, get_links.
  destruct (BrochureFacts.Website_run answer (PStr url) w)
    as [tr [Hrun _]].
  unfold trace_of; rewrite run_bind, Hrun; simpl.
  destruct (answer _ (world_after answer (Website__init__ (PStr url)) w))
    as [[e | completion] w2]; simpl; [reflexivity |].
  unfold first_content.
  destruct (choices completion) as [| choice rest]; simpl; [reflexivity |].
  destruct (message_content choice) as [s |]; simpl; [| reflexivity].
  rewrite BrochureFacts.run_lift_result; reflexivity.
Qed.

(** X12. Brochure builder, get_links: its outcome in every world. It raises
    what the completion call raises, an IndexError when the reply holds no
    choice, a TypeError when the content of the first choice is None, and
    otherwise gives what json.loads makes of that content, the decoded value
    or its error; nothing is caught. *)
Theorem get_links_outcome (url : string) (w : W) :
  outcome answer (get_links url) w
  = match classifier_reply url w with
    | inl e => inl e
    | inr completion =>
        match choices completion with
        | [] => inl IndexError
        | choice :: _ =>
            match message_content choice with
            | Some s => json_loads s
            | None => inl JSONTypeError
            end
        end
    end.
Proof. unfold outcome; rewrite get_links_calls; reflexivity. Qed.


(** The run of [get_all_details] up to the decoded reply. *)
Lemma get_all_details_enter (url : string) (w : W) :
  let w1 := world_after answer (Website__init__ (PStr url)) w in
  let tr0 := (trace_of answer (Website__init__ (PStr url)) w
                ++ trace_of answer (get_links url) w1)%list in
  let result0 :=
    ("Landing page:" ++ nl) ++ get_contents (page_at (PStr url) w) in
  run answer (get_all_details url) w
  = match outcome answer (get_links url) w1 with
    | inl e => (inl e, tr0, world_after answer (get_links url) w1)
    | inr reply =>
        let line := "Found links: " ++ str reply in
        let w3 := snd (answer (Print line) (world_after answer (get_links url) w1)) in
        let '(r, tr3, w4) :=
          run answer
            (found <- dict_get reply "links" (PList []) ;;
             items <- iterate found ;;
             for_links items result0) w3 in
        (r, (tr0 ++ Call (Print line) tt :: tr3)%list, w4)
    end.
Proof.
  intros w1 tr0 result0; subst w1 tr0 result0.
  unfold get_all_details, outcome, trace_of, world_after.
  destruct (BrochureFacts.Website_run answer (PStr url) w)
    as [tr [Hrun _]].
  unfold world_after in Hrun.
  rewrite run_bind, Hrun; cbn [fst snd].
  rewrite run_bind.
  destruct (run answer (get_links url) _) as [[[e | reply] tr2] w2];
    cbn [fst snd]; [reflexivity |].
  cbn [trigger bind run].
  destruct (answer (Print _) w2) as [[] w3]; cbn [snd].
  destruct (run answer _ w3) as [[r tr3] w4].
  rewrite <- app_assoc; reflexivity.
Qed.

(** X13. Brochure builder: whatever makes get_links raise (the completion
    call, a reply without choice or content, the decoder), create_brochure
    raises the same error; by then the landing page was fetched twice, no
    link was followed and the only completion request sent is the
    classifier's. *)
Theorem classifier_failure_aborts (company_name url : string) (w : W)
  (e : exn) :
  let w1 := world_after answer (Website__init__ (PStr url)) w in
  outcome answer (get_links url) w1 = inl e ->
  outcome answer (create_brochure company_name url) w = inl e
  /\ pacing (trace_of answer (create_brochure company_name url) w)
     = [Fetch (PStr url); Fetch (PStr url)]
  /\ chat_requests (trace_of answer (create_brochure company_name url) w)
     = [(classifier_messages url w1, Some (mkFormat "json_object"))].
Proof.
  intros w1 Hlinks.
  pose proof (get_all_details_enter url w) as Henter; cbv zeta in Henter.
  fold w1 in Henter; rewrite Hlinks in Henter.
  unfold outcome, trace_of, create_brochure, get_brochure_user_prompt.
  rewrite !run_bind, Henter; cbn [fst snd].
  repeat split.
  - rewrite pacing_app, Website_pacing.
    unfold trace_of; rewrite get_links_calls; cbn [fst snd].
    rewrite pacing_app; fold (trace_of answer (Website__init__ (PStr url)) w1).
    rewrite Website_pacing; reflexivity.
  - rewrite chat_requests_app.
    destruct (BrochureFacts.Website_run answer (PStr url) w)
      as [tr [Hrun [_ Hchat]]].
    unfold trace_of at 1; rewrite Hrun; cbn [fst snd]; rewrite Hchat.
    exact (proj2 (BrochureFacts.get_links_trace answer url w1)).
Qed.

(** X14. Brochure builder, create_brochure: once the prompt is built, the
    brochure request is the last call; create_brochure returns the content
    of the first choice of the reply, which may be None, and raises what the
    call raises or an IndexError when the reply holds no choice. *)
Theorem create_brochure_outcome (company_name url : string) (w w1 : W)
  (prompt : string) (tr : trace) :
  run answer (get_brochure_user_prompt company_name url) w
  = (inr prompt, tr, w1) ->
  let request :=
    ChatCompletionsCreate (mkOpenAI OLLAMA_URL OLLAMA_KEY) MODEL
      (brochure_messages prompt) None in
  run answer (create_brochure company_name url) w
  = (match fst (answer request w1) with
     | inl e => inl e
     | inr completion =>
         match choices completion with
         | [] => inl IndexError
         | choice :: _ => inr (message_content choice)
         end
     end,
     (tr ++ [Call request (fst (answer request w1))])%list,
     snd (answer request w1)).
Proof.
  intros Hprompt request; subst request.
  unfold create_brochure, brochure_messages; rewrite run_bind, Hprompt; simpl.
  destruct (answer _ w1) as [[e | completion] w2]; simpl; [reflexivity |].
  unfold first_content.
  destruct (choices completion) as [| choice rest]; reflexivity.
Qed.

(** X15. Brochure builder, get_brochure_user_prompt: when the preamble and
    the document have at most 5000 characters together, the prompt is that
    whole text, unchanged. *)
Theorem short_document_is_sent_whole (company_name url : string) (w : W)
  (details : string) :
  outcome answer (get_all_details url) w = inr details ->
  String.length (preamble company_name ++ details) <= 5000 ->
  outcome answer (get_brochure_user_prompt company_name url) w
  = inr (preamble company_name ++ details).
Proof.
  intros Hdetails Hshort.
  destruct (outcome answer (get_brochure_user_prompt company_name url) w)
    as [e | prompt] eqn:Hprompt.
  - unfold outcome in *; unfold get_brochure_user_prompt in Hprompt.
    rewrite run_bind in Hprompt.
    destruct (run answer (get_all_details url) w) as [[r tr] w1].
    cbn [fst] in Hdetails; subst r; discriminate.
  - destruct (BrochureFacts.prompt_is_slice answer company_name url w Hprompt)
      as [details' [Hdetails' ->]].
    rewrite Hdetails in Hdetails'; injection Hdetails' as <-.
    rewrite slice_to_all by exact Hshort; reflexivity.
Qed.

(** X16. Brochure builder, get_brochure_user_prompt: a company name so long
    that the preamble alone has 5000 characters or more leaves no room for
    the site: the prompt is the first 5000 characters of the preamble,
    whatever was fetched. *)
Theorem long_company_name_crowds_out_site (company_name url : string)
  (w : W) (prompt : string) :
  5000 <= String.length (preamble company_name) ->
  outcome answer (get_brochure_user_prompt company_name url) w = inr prompt ->
  prompt = slice_to 5000 (preamble company_name).
Proof.
  intros Hlong Hprompt.
  destruct (BrochureFacts.prompt_is_slice answer company_name url w Hprompt)
    as [details [_ ->]].
  apply slice_to_app_left; exact Hlong.
Qed.


(** *** Replies of other shapes *)

(** X17. Brochure builder, get_all_details: a reply that decodes to
    something else than a dict (a list of links, a string, a number, null)
    is printed and then makes get_all_details raise an AttributeError, as it
    has no get; the landing page was fetched twice and no link is
    followed. *)
Theorem reply_that_is_no_dict_aborts (url : string) (w : W) (reply : pyval) :
  let w1 := world_after answer (Website__init__ (PStr url)) w in
  outcome answer (get_links url) w1 = inr reply ->
  match reply with PDict _ => False | _ => True end ->
  outcome answer (get_all_details url) w = inl (AttributeError reply "get")
  /\ pacing (trace_of answer (get_all_details url) w)
     = [Fetch (PStr url); Fetch (PStr url)]
  /\ exists before,
       printed_lines (trace_of answer (get_all_details url) w)
       = app before ["Found links: " ++ str reply].
Proof.
  intros w1 Hlinks Hshape.
  pose proof (get_all_details_enter url w) as Henter; cbv zeta in Henter.
  fold w1 in Henter; rewrite Hlinks in Henter.
  unfold outcome, trace_of; rewrite Henter.
  assert (Hget : run answer
                   (found <- dict_get reply "links" (PList []) ;;
                    items <- iterate found ;;
                    for_links items
                      (("Landing page:" ++ nl)
                         ++ get_contents (page_at (PStr url) w)))
                   (snd (answer (Print ("Found links: " ++ str reply))
                           (world_after answer (get_links url) w1)))
                 = (inl (AttributeError reply "get"), [],
                    snd (answer (Print ("Found links: " ++ str reply))
                           (world_after answer (get_links url) w1)))).
  { destruct reply; try contradiction; reflexivity. }
  rewrite Hget; cbn [fst snd].
  repeat split.
  - rewrite !pacing_app, Website_pacing.
    unfold trace_of; rewrite get_links_calls; cbn [fst snd].
    rewrite pacing_app; fold (trace_of answer (Website__init__ (PStr url)) w1).
    rewrite Website_pacing; reflexivity.
  - eexists; rewrite printed_lines_app; reflexivity.
Qed.

(** X18. Brochure builder, get_all_details: what a links entry that is no
    list does. A dict or a string with items makes the loop take the first
    key or the first character for a link and raise a TypeError on its url;
    an empty dict or string gives the landing page alone; null, a number or
    a boolean raise a TypeError as they cannot be iterated. *)
Theorem links_entry_that_is_no_list (url : string) (w : W)
  (entries : list (string * pyval)) (found : pyval) :
  let w1 := world_after answer (Website__init__ (PStr url)) w in
  let landing :=
    ("Landing page:" ++ nl) ++ get_contents (page_at (PStr url) w) in
  outcome answer (get_links url) w1 = inr (PDict entries) ->
  lookup "links" entries = Some found ->
  match found with
  | PList _ => True
  | PDict [] => outcome answer (get_all_details url) w = inr landing
  | PDict ((key, _) :: _) =>
      outcome answer (get_all_details url) w
      = inl (NotSubscriptable (PStr key))
  | PStr EmptyString => outcome answer (get_all_details url) w = inr landing
  | PStr (String c _) =>
      outcome answer (get_all_details url) w
      = inl (NotSubscriptable (PStr (String c EmptyString)))
  | _ => outcome answer (get_all_details url) w = inl (NotIterable found)
  end.
Proof.
  intros w1 landing Hlinks Hfound.
  pose proof (get_all_details_enter url w) as Henter; cbv zeta in Henter.
  fold w1 in Henter; rewrite Hlinks in Henter.
  destruct found as [| b | z | f | s | items | dict]; [| | | | | exact I |].
  6: destruct dict as [| [key v] more].
  5: destruct s as [| c s].
  all: unfold outcome; rewrite Henter; cbn [dict_get bind]; rewrite Hfound;
    reflexivity.
Qed.

(** *** Missing keys *)

Lemma for_links_app (items1 items2 : list pyval) :
  forall (result : string) (w : W),
    run answer (for_links (items1 ++ items2) result) w
    = match run answer (for_links items1 result) w with
      | (inr result1, tr1, w1) =>
          let '(r, tr2, w2) := run answer (for_links items2 result1) w1 in
          (r, (tr1 ++ tr2)%list, w2)
      | (inl e, tr1, w1) => (inl e, tr1, w1)
      end.
Proof.
  induction items1 as [| link rest IH]; intros result w.
  - cbn [app for_links run].
    destruct (run answer (for_links items2 result) w) as [[r tr2] w2];
      reflexivity.
  - cbn [app for_links].
    destruct (BrochureFacts.followed_pure link) as [[e | follow] ->];
      rewrite !BrochureFacts.run_pure_bind; [reflexivity |].
    destruct follow; [| apply IH].
    cbn [trigger bind run].
    destruct (answer (SleepUniform 1 2) w) as [[] w1].
    destruct (BrochureFacts.getitem_pure link "type") as [[e | type] ->];
      rewrite !BrochureFacts.run_pure_bind; [reflexivity |].
    destruct (BrochureFacts.getitem_pure link "url") as [[e | u] ->];
      rewrite !BrochureFacts.run_pure_bind; [reflexivity |].
    rewrite !run_bind.
    destruct (run answer (Website__init__ u) w1) as [[[e | site] trW] w2];
      [reflexivity |].
    rewrite IH.
    destruct (run answer (for_links rest _) w2) as [[[e | result1] tr1] w3];
      [reflexivity |].
    destruct (run answer (for_links items2 result1) w3) as [[r tr2] w4].
    rewrite app_comm_cons, app_assoc; reflexivity.
Qed.

(** X19. Brochure builder, the loop: a link without url entry, met after
    well-formed links, makes the loop raise a KeyError for url; the wanted
    links before it were fetched, and the document built from them is
    lost. *)
Theorem link_without_url_aborts_midway (items rest : list pyval)
  (cls : list LinkClassification) (entries : list (string * pyval))
  (result : string) (w : W) :
  Forall2 classifies items cls ->
  lookup "url" entries = None ->
  outcome answer (for_links (items ++ PDict entries :: rest) result) w
  = inl (KeyError "url")
  /\ fetched_urls
       (trace_of answer (for_links (items ++ PDict entries :: rest) result) w)
     = map (fun c => PStr (link_url c)) (filter wanted cls).
Proof.
  intros Hitems Hurl.
  unfold outcome, trace_of.
  rewrite for_links_app, (BrochureFacts.for_links_refines answer Hitems).
  destruct (BrochureFacts.append_pages_run answer (filter wanted cls) result w)
    as [tr [w1 [-> [Hget _]]]].
  cbn [for_links]; unfold followed; cbn [getitem]; rewrite Hurl.
  cbn [bind run fst snd].
  rewrite app_nil_r; auto.
Qed.

(** X20. Brochure builder, the loop: a link with a url to follow and no
    type entry makes the loop raise a KeyError for type after the delay and
    before any fetch. *)
Theorem link_without_type_raises_after_delay
  (entries : list (string * pyval)) (s : string) (rest : list pyval)
  (result : string) (w : W) :
  lookup "url" entries = Some (PStr s) ->
  1 < String.length s ->
  lookup "type" entries = None ->
  run answer (for_links (PDict entries :: rest) result) w
  = (inl (KeyError "type"), [Call (SleepUniform 1 2) tt],
     snd (answer (SleepUniform 1 2) w)).
Proof.
  intros Hurl Hlong Htype.
  cbn [for_links]; rewrite (followed_string entries Hurl).
  apply Nat.ltb_lt in Hlong; rewrite Hlong.
  cbn [bind trigger run getitem]; rewrite Htype.
  destruct (answer (SleepUniform 1 2) w) as [[] w1]; reflexivity.
Qed.

(** *** Pacing *)

Lemma append_pages_pacing (cls : list LinkClassification) :
  forall (result : string) (w : W),
    pacing (trace_of answer (append_pages cls result) w)
    = flat_map paced cls.
Proof.
  unfold trace_of.
  induction cls as [| c rest IH]; intros result w; [reflexivity |].
  cbn [append_pages trigger bind run].
  destruct (answer (SleepUniform 1 2) w) as [[] w1].
  pose proof (Website_pacing (PStr (link_url c)) w1) as Hpage.
  destruct (BrochureFacts.Website_run answer (PStr (link_url c)) w1)
    as [trW [Hrun _]].
  unfold trace_of in Hpage; rewrite Hrun in Hpage; cbn [fst snd] in Hpage.
  rewrite run_bind, Hrun.
  specialize (IH ((result ++ (nl ++ nl ++ link_type c ++ nl))
                    ++ get_contents (page_at (PStr (link_url c)) w1))
                 (world_after answer (Website__init__ (PStr (link_url c))) w1)).
  destruct (run answer (append_pages rest _) _) as [[r tr2] w3].
  cbn [fst snd pacing flat_map paced app] in IH |- *.
  rewrite pacing_app, Hpage, IH; reflexivity.
Qed.

(** X21. Brochure builder, get_all_details on a reply that decodes to the
    classifications cls: the two fetches of the landing page come without
    delay, and each followed link costs one delay drawn between 1 and 2,
    directly before its fetch; no other delay is made. *)
Theorem one_delay_before_each_followed_link (url : string) (w : W)
  (reply : pyval) (cls : list LinkClassification) :
  let w1 := world_after answer (Website__init__ (PStr url)) w in
  outcome answer (get_links url) w1 = inr reply ->
  decodes reply cls ->
  pacing (trace_of answer (get_all_details url) w)
  = Fetch (PStr url) :: Fetch (PStr url)
      :: flat_map paced (filter wanted cls).
Proof.
  intros w1 Hlinks [entries [items [-> [Hfound Hitems]]]].
  pose proof (get_all_details_enter url w) as Henter; cbv zeta in Henter.
  fold w1 in Henter; rewrite Hlinks in Henter.
  unfold trace_of at 1; rewrite Henter.
  cbn [dict_get bind]; rewrite Hfound; cbn [iterate bind].
  rewrite (BrochureFacts.for_links_refines answer Hitems).
  pose proof (append_pages_pacing (filter wanted cls)
                (("Landing page:" ++ nl)
                   ++ get_contents (page_at (PStr url) w))
                (snd (answer (Print ("Found links: " ++ str (PDict entries)))
                        (world_after answer (get_links url) w1)))) as Hloop.
  unfold trace_of in Hloop.
  destruct (run answer (append_pages (filter wanted cls) _) _)
    as [[r tr3] w4].
  cbn [fst snd] in Hloop |- *.
  rewrite !pacing_app, Website_pacing.
  unfold trace_of; rewrite get_links_calls; cbn [fst snd].
  rewrite pacing_app; fold (trace_of answer (Website__init__ (PStr url)) w1).
  rewrite Website_pacing; cbn [pacing app].
  rewrite Hloop; reflexivity.
Qed.

End more.
(** *** The theorems at work in the example world *)

Lemma followed_iff_longer_than_one_witness :
  followed (Example.link "short" "x") = Ret false
  /\ forall type, wanted (mkLink type "x") = false.
Proof.
  refine (@followed_iff_longer_than_one
            [("type", PStr "short"); ("url", PStr "x")] "x" _).
  reflexivity.
Defined.

Lemma followed_raises_exactly_witness :
  followed (PDict [("url", PInt 7)]) = Raise (NoLen (PInt 7))
  /\ exn_class (NoLen (PInt 7)) = "TypeError".
Proof. exact (followed_raises_exactly (PDict [("url", PInt 7)])). Defined.

Lemma document_begins_with_landing_page_witness :
  exists document,
    outcome Example.scripted
      (get_all_details (H := Example.example_library) acme) Example.online
    = inr document
    /\ exists suffix,
         document
         = ("Landing page:" ++ nl)
             ++ get_contents
                  (BrochureRuns.page_at (L := Example.example_library)
                     Example.scripted (PStr acme) Example.online)
             ++ suffix.
Proof.
  eexists; split; [reflexivity |].
  refine (@document_begins_with_landing_page Example.example_library _
            Example.scripted acme Example.online _ _).
  reflexivity.
Defined.

Lemma page_without_body_keeps_links_witness :
  exists title,
    outcome Example.scripted
      (Website__init__ (H := Example.example_library)
         (PStr "https://acme.test/plain")) Example.online
    = inr (mkWebsite (PStr "https://acme.test/plain") title EmptyString
             (anchor_targets [ NavigableString "plain text" ]))
    /\ (find "title" [ NavigableString "plain text" ] = None
        -> title = "No title found").
Proof.
  refine (@page_without_body_keeps_links Example.example_library _
            Example.scripted (PStr "https://acme.test/plain") Example.online
            (mkResponse 200 "plain text") [ NavigableString "plain text" ]
            _ _ _ _);
    reflexivity.
Defined.

Lemma brochure_text_without_noise_witness :
  exists cleaned site,
    outcome Example.scripted
      (Website__init__ (H := Example.example_library) (PStr acme))
      Example.online = inr site
    /\ text site = Example.example_get_text cleaned
    /\ find_all NOISE (contents_of cleaned) = []
    /\ (find_all NOISE (contents_of MoreExamples.home_body) = []
        -> cleaned = MoreExamples.home_body).
Proof.
  refine (@brochure_text_without_noise Example.example_library _
            Example.scripted (PStr acme) Example.online
            (mkResponse 200 Example.home_html) Example.home_doc
            MoreExamples.home_body _ _ _ _);
    reflexivity.
Defined.

Lemma classifier_failure_aborts_witness :
  outcome Example.scripted
    (create_brochure (H := Example.example_library) "Acme" acme)
    Example.endpoint_down
  = inl Example.APIConnectionError.
Proof.
  refine (proj1 (@classifier_failure_aborts Example.example_library _
                   Example.scripted "Acme" acme Example.endpoint_down
                   Example.APIConnectionError _)).
  reflexivity.
Defined.

Lemma create_brochure_outcome_witness :
  exists prompt tr,
    run Example.scripted
      (get_brochure_user_prompt (H := Example.example_library) "Acme" acme)
      MoreExamples.endpoint_empty_late
    = (inr prompt, tr, MoreExamples.endpoint_empty_late)
    /\ run Example.scripted
         (create_brochure (H := Example.example_library) "Acme" acme)
         MoreExamples.endpoint_empty_late
       = (inl IndexError,
          (tr ++ [Call (ChatCompletionsCreate
                          (mkOpenAI OLLAMA_URL OLLAMA_KEY) MODEL
                          (brochure_messages prompt) None)
                    (inr (mkCompletion []))])%list,
          MoreExamples.endpoint_empty_late).
Proof.
  do 2 eexists; split; [reflexivity |].
  refine (@create_brochure_outcome Example.example_library _
            Example.scripted "Acme" acme
            MoreExamples.endpoint_empty_late
            MoreExamples.endpoint_empty_late _ _ _).
  reflexivity.
Defined.

Lemma short_document_is_sent_whole_witness :
  exists details,
    outcome Example.scripted
      (get_all_details (H := Example.example_library) acme) Example.online
    = inr details
    /\ outcome Example.scripted
         (get_brochure_user_prompt (H := Example.example_library) "Acme" acme)
         Example.online
       = inr (preamble "Acme" ++ details).
Proof.
  eexists; split; [reflexivity |].
  refine (@short_document_is_sent_whole Example.example_library _
            Example.scripted "Acme" acme Example.online _ _ _).
  - reflexivity.
  - apply Nat.leb_le; vm_compute; reflexivity.
Defined.

Lemma long_company_name_crowds_out_site_witness :
  exists prompt,
    outcome Example.scripted
      (get_brochure_user_prompt (H := Example.example_library)
         MoreExamples.long_name acme) Example.online
    = inr prompt
    /\ prompt = slice_to 5000 (preamble MoreExamples.long_name).
Proof.
  eexists; split; [reflexivity |].
  refine (@long_company_name_crowds_out_site Example.example_library _
            Example.scripted MoreExamples.long_name acme Example.online _ _ _).
  - apply Nat.leb_le; vm_compute; reflexivity.
  - reflexivity.
Defined.

Lemma reply_that_is_no_dict_aborts_witness :
  outcome Example.scripted
    (get_all_details
       (H := MoreExamples.decoding_library MoreExamples.bare_list) acme)
    Example.online
  = inl (AttributeError MoreExamples.bare_list "get").
Proof.
  refine (proj1 (@reply_that_is_no_dict_aborts
                   (MoreExamples.decoding_library MoreExamples.bare_list) _
                   Example.scripted acme Example.online
                   MoreExamples.bare_list _ _)).
  - reflexivity.
  - exact I.
Defined.

Lemma links_entry_that_is_no_list_witness :
  outcome Example.scripted
    (get_all_details
       (H := MoreExamples.decoding_library MoreExamples.links_by_name) acme)
    Example.online
  = inl (NotSubscriptable (PStr "about page")).
Proof.
  refine (@links_entry_that_is_no_list
            (MoreExamples.decoding_library MoreExamples.links_by_name) _
            Example.scripted acme Example.online
            [("links", PDict [("about page", PStr "https://acme.test/about")])]
            (PDict [("about page", PStr "https://acme.test/about")]) _ _);
    reflexivity.
Defined.

Lemma link_without_url_aborts_midway_witness :
  outcome Example.scripted
    (for_links (H := Example.example_library)
       ([ Example.link "about page" "https://acme.test/about" ]
          ++ PDict [("type", PStr "careers page")]
          :: [ Example.link "team page" "https://acme.test/team" ])%list
       "Landing page:") Example.online
  = inl (KeyError "url")
  /\ fetched_urls
       (trace_of Example.scripted
          (for_links (H := Example.example_library)
             ([ Example.link "about page" "https://acme.test/about" ]
                ++ PDict [("type", PStr "careers page")]
                :: [ Example.link "team page" "https://acme.test/team" ])%list
             "Landing page:") Example.online)
     = [ PStr "https://acme.test/about" ].
Proof.
  refine (@link_without_url_aborts_midway Example.example_library _
            Example.scripted
            [ Example.link "about page" "https://acme.test/about" ]
            [ Example.link "team page" "https://acme.test/team" ]
            [ mkLink "about page" "https://acme.test/about" ]
            [("type", PStr "careers page")] "Landing page:" Example.online
            _ _).
  - constructor; [| constructor].
    eexists; repeat split; reflexivity.
  - reflexivity.
Defined.

Lemma link_without_type_raises_after_delay_witness :
  run Example.scripted
    (for_links (H := Example.example_library)
       [ MoreExamples.untyped_link ] "Landing page:") Example.online
  = (inl (KeyError "type"), [Call (SleepUniform 1 2) tt], Example.online).
Proof.
  refine (@link_without_type_raises_after_delay Example.example_library _
            Example.scripted [("url", PStr "https://acme.test/about")]
            "https://acme.test/about" [] "Landing page:" Example.online
            _ _ _).
  - reflexivity.
  - apply Nat.ltb_lt; reflexivity.
  - reflexivity.
Defined.

Lemma one_delay_before_each_followed_link_witness :
  pacing
    (trace_of Example.scripted
       (get_all_details (H := Example.example_library) acme) Example.online)
  = [ Fetch (PStr acme); Fetch (PStr acme);
      Delay 1 2; Fetch (PStr "https://acme.test/about");
      Delay 1 2; Fetch (PStr "https://acme.test/careers");
      Delay 1 2; Fetch (PStr "https://acme.test/about") ].
Proof.
  refine (@one_delay_before_each_followed_link Example.example_library _
            Example.scripted acme Example.online Example.reply_value
            acme_links _ BrochureFacts.acme_reply_decodes).
  reflexivity.
Defined.

End BrochureMore.
